(** * The Bleve search engine adapter of mattermost-server

    A shallow embedding of [services/searchengine/bleveengine/bleve.go]:
    the query trees the engine builds for post and user searches, the
    engine's lifecycle ([Start], [Stop], [UpdateConfig]) and its inert
    maintenance entry points, followed by the properties of the
    specification that concern them.

    Conventions.
    - A Go slice whose nil-ness the code inspects is an [option (list _)]
      ([None] is the nil slice, [Some []] the empty non-nil one); a slice the
      code only measures and ranges over is a [list].
    - Pointers received from the caller ([*model.Config], its [*bool] and
      [*string] settings, [*model.UserSearchOptions], the elements of the
      channel and parameter lists) are taken to be non-nil and are modelled
      by the value they point to.  The engine's own index handles are
      [option]s: they are nil until [Start] has opened them, and a method
      call on a nil handle panics.
    - The Bleve library and the disk are the outside world: an instance of
      [BleveEnv] gives their behaviour, and every call into them is recorded
      in a trace. *)

From Stdlib Require Import ZArith Ascii String Floats.SpecFloat.
From Stdlib Require Import Zpower.
From stdpp Require Import base strings list gmap.

Set Warnings "-register-all".

Local Open Scope string_scope.
Local Open Scope list_scope.

(** ** Go values *)

Module Go.

(** A slice that can be nil. *)
Definition slice (A : Type) : Type := option (list A).

Definition len {A} (s : slice A) : nat :=
  match s with None => 0 | Some l => length l end.

(** The elements a [range] loop visits. *)
Definition elems {A} (s : slice A) : list A :=
  match s with None => [] | Some l => l end.

(** [for _, x := range l { acc = append(acc, f(x)) }] *)
Definition range_append {A B} (f : A → B) (l : list A) (acc : list B) : list B :=
  foldl (λ acc x, acc ++ [f x]) acc l.

(** [float64(i)] for an [int64] [i]: IEEE 754 binary64, round to nearest
    even. *)
Definition float64 (i : Z) : spec_float := binary_normalize 53 1024 i 0 false.

End Go.

(** ** Query trees (package [bleve/search/query]) *)

Inductive Query : Type :=
| TermQuery (Term : string) (FieldVal : string)
| MatchQuery (Match : string) (FieldVal : string)
| PrefixQuery (Prefix : string) (FieldVal : string)
| NumericRangeQuery (Min Max : option spec_float) (FieldVal : string)
| MatchAllQuery
| ConjunctionQuery (Conjuncts : list Query)
| DisjunctionQuery (Disjuncts : list Query)
| BooleanQuery (Must Should MustNot : list Query).

(** The constructors of package [bleve]: a fresh leaf query has no field
    until [SetField] names one. *)
Definition NewTermQuery (term : string) : Query := TermQuery term "".
Definition NewMatchQuery (m : string) : Query := MatchQuery m "".
Definition NewPrefixQuery (prefix : string) : Query := PrefixQuery prefix "".
Definition NewNumericRangeQuery (min max : option spec_float) : Query :=
  NumericRangeQuery min max "".
Definition NewMatchAllQuery : Query := MatchAllQuery.
Definition NewConjunctionQuery (conjuncts : list Query) : Query :=
  ConjunctionQuery conjuncts.
Definition NewDisjunctionQuery (disjuncts : list Query) : Query :=
  DisjunctionQuery disjuncts.
Definition NewBooleanQuery : Query := BooleanQuery [] [] [].

Definition SetField (f : string) (q : Query) : Query :=
  match q with
  | TermQuery t _ => TermQuery t f
  | MatchQuery m _ => MatchQuery m f
  | PrefixQuery p _ => PrefixQuery p f
  | NumericRangeQuery lo hi _ => NumericRangeQuery lo hi f
  | _ => q
  end.

(** [q.AddQuery(aq...)] on a conjunction or a disjunction. *)
Definition AddQuery (aq : list Query) (q : Query) : Query :=
  match q with
  | ConjunctionQuery qs => ConjunctionQuery (qs ++ aq)
  | DisjunctionQuery qs => DisjunctionQuery (qs ++ aq)
  | _ => q
  end.

Definition AddMust (m : list Query) (q : Query) : Query :=
  match q with
  | BooleanQuery must should mustNot => BooleanQuery (must ++ m) should mustNot
  | _ => q
  end.

Definition AddMustNot (m : list Query) (q : Query) : Query :=
  match q with
  | BooleanQuery must should mustNot => BooleanQuery must should (mustNot ++ m)
  | _ => q
  end.

(** Every field name that occurs in a query tree. *)
Fixpoint fields_of (q : Query) : list string :=
  match q with
  | TermQuery _ f | MatchQuery _ f | PrefixQuery _ f
  | NumericRangeQuery _ _ f => [f]
  | MatchAllQuery => []
  | ConjunctionQuery qs | DisjunctionQuery qs => flat_map fields_of qs
  | BooleanQuery must should mustNot =>
      flat_map fields_of must ++ flat_map fields_of should
        ++ flat_map fields_of mustNot
  end.

(** Every numeric range node of a query tree, left to right. *)
Fixpoint range_clauses (q : Query) : list Query :=
  match q with
  | NumericRangeQuery _ _ _ => [q]
  | TermQuery _ _ | MatchQuery _ _ | PrefixQuery _ _ | MatchAllQuery => []
  | ConjunctionQuery qs | DisjunctionQuery qs => flat_map range_clauses qs
  | BooleanQuery must should mustNot =>
      flat_map range_clauses must ++ flat_map range_clauses should
        ++ flat_map range_clauses mustNot
  end.

Record SearchRequest := NewSearchRequest { RequestQuery : Query }.

Record DocumentMatch := { ID : string }.
Record SearchResult := { Hits : list DocumentMatch }.

(** ** Index mappings *)

Inductive FieldMapping := keywordMapping | standardMapping | dateMapping.

Definition DocumentMapping := list (string * FieldMapping).
Definition AddFieldMappingsAt (name : string) (fm : FieldMapping)
    (dm : DocumentMapping) : DocumentMapping := dm ++ [(name, fm)].

Definition IndexMappingImpl := list (string * DocumentMapping).
Definition AddDocumentMapping (name : string) (dm : DocumentMapping)
    (im : IndexMappingImpl) : IndexMappingImpl := im ++ [(name, dm)].

Definition getChannelIndexMapping : IndexMappingImpl :=
  let channelMapping := [] in
  let channelMapping := AddFieldMappingsAt "Id" keywordMapping channelMapping in
  let channelMapping := AddFieldMappingsAt "TeamId" keywordMapping channelMapping in
  let channelMapping := AddFieldMappingsAt "NameSuggest" keywordMapping channelMapping in
  AddDocumentMapping "_default" channelMapping [].

Definition getPostIndexMapping : IndexMappingImpl :=
  let postMapping := [] in
  let postMapping := AddFieldMappingsAt "Id" keywordMapping postMapping in
  let postMapping := AddFieldMappingsAt "TeamId" keywordMapping postMapping in
  let postMapping := AddFieldMappingsAt "ChannelId" keywordMapping postMapping in
  let postMapping := AddFieldMappingsAt "UserId" keywordMapping postMapping in
  let postMapping := AddFieldMappingsAt "CreateAt" dateMapping postMapping in
  let postMapping := AddFieldMappingsAt "Message" standardMapping postMapping in
  let postMapping := AddFieldMappingsAt "Type" keywordMapping postMapping in
  let postMapping := AddFieldMappingsAt "Hashtags" standardMapping postMapping in
  let postMapping := AddFieldMappingsAt "Attachments" standardMapping postMapping in
  AddDocumentMapping "_default" postMapping [].

Definition getUserIndexMapping : IndexMappingImpl :=
  let userMapping := [] in
  let userMapping := AddFieldMappingsAt "Id" keywordMapping userMapping in
  let userMapping := AddFieldMappingsAt "SuggestionsWithFullname" keywordMapping userMapping in
  let userMapping := AddFieldMappingsAt "SuggestionsWithoutFullname" keywordMapping userMapping in
  let userMapping := AddFieldMappingsAt "TeamsIds" keywordMapping userMapping in
  let userMapping := AddFieldMappingsAt "ChannelsIds" keywordMapping userMapping in
  AddDocumentMapping "_default" userMapping [].

(** ** Package [model] *)

Record Channel := { Id : string }.

Record SearchParams := {
  Terms : string;
  OrTerms : bool;
  InChannels : list string;
  ExcludedChannels : list string;
  FromUsers : list string;
  ExcludedUsers : list string;
  AfterDate : string;
  ExcludedAfterDate : string;
  BeforeDate : string;
  ExcludedBeforeDate : string;
  OnDate : string;
  ExcludedDate : string;
}.

(** The date accessors of [model.SearchParams] are declared in package
    [model]; the engine only calls them, so they are parameters here.  Each
    returns [int64] epoch milliseconds; the two-valued ones return the start
    and the end of a day. *)
Class SearchParamsDates := {
  GetOnDateMillis : SearchParams → Z * Z;
  GetAfterDateMillis : SearchParams → Z;
  GetBeforeDateMillis : SearchParams → Z;
  GetExcludedAfterDateMillis : SearchParams → Z;
  GetExcludedBeforeDateMillis : SearchParams → Z;
  GetExcludedDateMillis : SearchParams → Z * Z;
}.

Record UserSearchOptions := { AllowFullNames : bool }.

(** [model.PostSearchMatches] is [map[string][]string]; [None] is the nil
    map. *)
Definition PostSearchMatches : Type := option (gmap string (list string)).

Record AppError := NewAppError {
  Where : string;
  ErrId : string;
  DetailedError : string;
  StatusCode : Z;
}.

Definition StatusInternalServerError : Z := 500.

Record BleveSettingsT := {
  EnableIndexing : bool;
  IndexDir : string;
  EnableSearching : bool;
  EnableAutocomplete : bool;
}.

Record Config := { BleveSettings : BleveSettingsT }.

(** ** [SearchPosts]: building the query *)

Section PostQuery.
Context `{SearchParamsDates}.

(** The three slices the parameter loop grows. *)
Record PostClauses := {
  termQueries : list Query;
  filters : list Query;
  notFilters : list Query;
}.

Definition addFilter (q : Query) (c : PostClauses) : PostClauses :=
  {| termQueries := termQueries c;
     filters := filters c ++ [q];
     notFilters := notFilters c |}.

Definition addNotFilter (q : Query) (c : PostClauses) : PostClauses :=
  {| termQueries := termQueries c;
     filters := filters c;
     notFilters := notFilters c ++ [q] |}.

Definition addTermQuery (q : Query) (c : PostClauses) : PostClauses :=
  {| termQueries := termQueries c ++ [q];
     filters := filters c;
     notFilters := notFilters c |}.

Definition channelTerm (channelId : string) : Query :=
  let channelQ := NewTermQuery channelId in
  SetField "ChannelId" channelQ.

Definition userTerm (userId : string) : Query :=
  let userQ := NewTermQuery userId in
  SetField "UserId" userQ.

(** The body of [if i == 0 { ... }]: the channel, user and date clauses. *)
Definition globalFilters (params : SearchParams) (c : PostClauses) : PostClauses :=
  let c :=
    if bool_decide (0 < length (InChannels params)) then
      let inChannels := Go.range_append channelTerm (InChannels params) [] in
      addFilter (NewDisjunctionQuery inChannels) c
    else c in
  let c :=
    if bool_decide (0 < length (ExcludedChannels params)) then
      let excludedChannels :=
        Go.range_append channelTerm (ExcludedChannels params) [] in
      addNotFilter (NewDisjunctionQuery excludedChannels) c
    else c in
  let c :=
    if bool_decide (0 < length (FromUsers params)) then
      let fromUsers := Go.range_append userTerm (FromUsers params) [] in
      addFilter (NewDisjunctionQuery fromUsers) c
    else c in
  let c :=
    if bool_decide (0 < length (ExcludedUsers params)) then
      let excludedUsers := Go.range_append userTerm (ExcludedUsers params) [] in
      addNotFilter (NewDisjunctionQuery excludedUsers) c
    else c in
  if bool_decide (OnDate params ≠ "") then
    let '(before, after) := GetOnDateMillis params in
    let beforeFloat64 := Go.float64 before in
    let afterFloat64 := Go.float64 after in
    let onDateQ := NewNumericRangeQuery (Some beforeFloat64) (Some afterFloat64) in
    addFilter (SetField "CreateAt" onDateQ) c
  else
    let c :=
      if bool_decide (AfterDate params ≠ "") || bool_decide (BeforeDate params ≠ "") then
        let min :=
          if bool_decide (AfterDate params ≠ "")
          then Some (Go.float64 (GetAfterDateMillis params)) else None in
        let max :=
          if bool_decide (BeforeDate params ≠ "")
          then Some (Go.float64 (GetBeforeDateMillis params)) else None in
        let dateQ := NewNumericRangeQuery min max in
        addFilter (SetField "CreateAt" dateQ) c
      else c in
    let c :=
      if bool_decide (ExcludedAfterDate params ≠ "") then
        let minf := Go.float64 (GetExcludedAfterDateMillis params) in
        let dateQ := NewNumericRangeQuery (Some minf) None in
        addNotFilter (SetField "CreateAt" dateQ) c
      else c in
    let c :=
      if bool_decide (ExcludedBeforeDate params ≠ "") then
        let maxf := Go.float64 (GetExcludedBeforeDateMillis params) in
        let dateQ := NewNumericRangeQuery None (Some maxf) in
        addNotFilter (SetField "CreateAt" dateQ) c
      else c in
    if bool_decide (ExcludedDate params ≠ "") then
      let '(before, after) := GetExcludedDateMillis params in
      let beforef := Go.float64 before in
      let afterf := Go.float64 after in
      let onDateQ := NewNumericRangeQuery (Some beforef) (Some afterf) in
      addNotFilter (SetField "CreateAt" onDateQ) c
    else c.

(** One iteration of [for i, params := range searchParams]. *)
Definition paramsStep (i : nat) (params : SearchParams) (c : PostClauses) : PostClauses :=
  let c := if bool_decide (i = 0) then globalFilters params c else c in
  let messageQ := NewMatchQuery (Terms params) in
  addTermQuery (SetField "Message" messageQ) c.

Fixpoint paramsLoop (i : nat) (searchParams : list SearchParams)
    (c : PostClauses) : PostClauses :=
  match searchParams with
  | [] => c
  | params :: rest => paramsLoop (S i) rest (paramsStep i params c)
  end.

Definition noClauses : PostClauses :=
  {| termQueries := []; filters := []; notFilters := [] |}.

(** The clauses collected from the whole parameter list. *)
Definition postClauses (searchParams : list SearchParams) : PostClauses :=
  paramsLoop 0 searchParams noClauses.

(** The query [SearchPosts] hands to the post index; [None] when
    [searchParams[0]] is out of range, where the Go code panics. *)
Definition postsQuery (channels : list Channel)
    (searchParams : list SearchParams) : option Query :=
  let channelQueries := Go.range_append (λ channel, channelTerm (Id channel)) channels [] in
  let channelDisjunctionQ := NewDisjunctionQuery channelQueries in
  let c := postClauses searchParams in
  match searchParams !! 0 with
  | None => None
  | Some first =>
      let allTermsQ :=
        if OrTerms first then NewDisjunctionQuery (termQueries c)
        else NewConjunctionQuery (termQueries c) in
      let query := NewBooleanQuery in
      let query := AddMust [channelDisjunctionQ; allTermsQ] query in
      let query :=
        if bool_decide (0 < length (filters c))
        then AddMust [NewConjunctionQuery (filters c)] query else query in
      let query :=
        if bool_decide (0 < length (notFilters c))
        then AddMustNot (notFilters c) query else query in
      Some query
  end.

End PostQuery.

(** ** The outside world

    What the engine consumes from the Bleve library, the disk and the Go
    runtime.  [World] is the state of everything outside the engine; an
    error is the text of its [Error()]. *)
Class BleveEnv := {
  World : Type;
  (** a non-nil [bleve.Index] *)
  Handle : Type;
  JobServer : Type;
  bleve_Open : string → World → (Handle + string) * World;
  bleve_New : string → IndexMappingImpl → World → (Handle + string) * World;
  Index_Close : Handle → World → option string * World;
  Index_Search : Handle → SearchRequest → World → (SearchResult + string) * World;
  filepath_Join : string → string → string;
  strings_ToLower : string → string;
}.

Section Engine.
Context `{SearchParamsDates} `{BleveEnv}.

Record BleveEngine := {
  postIndex : option Handle;
  userIndex : option Handle;
  channelIndex : option Handle;
  cfg : Config;
  jobServer : option JobServer;
  indexSync : bool;
}.

(** A call that left the engine. *)
Inductive Event :=
| EvWarn (msg : string)
| EvOpen (path : string)
| EvNew (path : string) (mapping : IndexMappingImpl)
| EvClose (index : Handle)
| EvSearch (index : Handle) (req : SearchRequest).

Record State := {
  engine : BleveEngine;
  world : World;
  trace : list Event;
}.

Inductive Res (A : Type) :=
| Ok (a : A)
| Panic (msg : string).
Global Arguments Ok {A} a.
Global Arguments Panic {A} msg.

(** Computations over the engine and the world that may panic. *)
Definition M (A : Type) : Type := State → Res A * State.

Definition ret {A} (a : A) : M A := λ st, (Ok a, st).

Definition bind {A B} (m : M A) (k : A → M B) : M B :=
  λ st, match m st with
        | (Ok a, st') => k a st'
        | (Panic msg, st') => (Panic msg, st')
        end.

Definition panic {A} (msg : string) : M A := λ st, (Panic msg, st).

Definition getEngine : M BleveEngine := λ st, (Ok (engine st), st).

Definition putEngine (b : BleveEngine) : M unit :=
  λ st, (Ok tt, {| engine := b; world := world st; trace := trace st |}).

Definition emit (e : Event) : M unit :=
  λ st, (Ok tt, {| engine := engine st; world := world st;
                   trace := trace st ++ [e] |}).

(** Runs a library call on the world. *)
Definition extern {A} (f : World → A * World) : M A :=
  λ st, let '(a, w) := f (world st) in
        (Ok a, {| engine := engine st; world := w; trace := trace st |}).

End Engine.

Declare Scope go_scope.
Delimit Scope go_scope with go.
Notation "x <- c1 ;; c2" := (bind c1 (λ x, c2))
  (at level 20, c1 at level 99, c2 at level 200) : go_scope.
Notation "' pat <- c1 ;; c2" := (bind c1 (λ x, match x with pat => c2 end))
  (at level 20, pat pattern, c1 at level 99, c2 at level 200) : go_scope.
Notation "c1 ;; c2" := (bind c1 (λ _, c2))
  (at level 100, c2 at level 200, right associativity) : go_scope.
Local Open Scope go_scope.

Section Methods.
Context `{SearchParamsDates} `{BleveEnv}.

Definition mlog_Warn (msg : string) : M unit := emit (EvWarn msg).

Definition bleveOpen (path : string) : M (Handle + string) :=
  emit (EvOpen path);; extern (bleve_Open path).

Definition bleveNew (path : string) (mapping : IndexMappingImpl) : M (Handle + string) :=
  emit (EvNew path mapping);; extern (bleve_New path mapping).

(** [index.Close()]; the receiver is an interface value, nil panics. *)
Definition indexClose (index : option Handle) : M (option string) :=
  match index with
  | None => panic "nil pointer dereference"
  | Some h => emit (EvClose h);; extern (Index_Close h)
  end.

(** [index.Search(req)] *)
Definition indexSearch (index : option Handle) (req : SearchRequest)
    : M (SearchResult + string) :=
  match index with
  | None => panic "nil pointer dereference"
  | Some h => emit (EvSearch h req);; extern (Index_Search h req)
  end.

Definition setPostIndex (i : option Handle) : M unit :=
  b <- getEngine;;
  putEngine {| postIndex := i; userIndex := userIndex b;
               channelIndex := channelIndex b; cfg := cfg b;
               jobServer := jobServer b; indexSync := indexSync b |}.

Definition setUserIndex (i : option Handle) : M unit :=
  b <- getEngine;;
  putEngine {| postIndex := postIndex b; userIndex := i;
               channelIndex := channelIndex b; cfg := cfg b;
               jobServer := jobServer b; indexSync := indexSync b |}.

Definition setChannelIndex (i : option Handle) : M unit :=
  b <- getEngine;;
  putEngine {| postIndex := postIndex b; userIndex := userIndex b;
               channelIndex := i; cfg := cfg b;
               jobServer := jobServer b; indexSync := indexSync b |}.

Definition withCfg (c : Config) (b : BleveEngine) : BleveEngine :=
  {| postIndex := postIndex b; userIndex := userIndex b;
     channelIndex := channelIndex b; cfg := c;
     jobServer := jobServer b; indexSync := indexSync b |}.

Definition setCfg (c : Config) : M unit :=
  b <- getEngine;; putEngine (withCfg c b).

(** *** Lifecycle *)

Definition createOrOpenIndex (cfg : Config) (indexName : string)
    (mapping : IndexMappingImpl) : M (option Handle * option string) :=
  let indexPath :=
    filepath_Join (IndexDir (BleveSettings cfg)) (String.append indexName ".bleve") in
  r <- bleveOpen indexPath;;
  match r with
  | inl index => ret (Some index, None)
  | inr _ =>
      r <- bleveNew indexPath mapping;;
      match r with
      | inr err => ret (None, Some err)
      | inl index => ret (Some index, None)
      end
  end.

Definition NewBleveEngine (cfg : Config) (jobServer : option JobServer) : BleveEngine :=
  {| postIndex := None; userIndex := None; channelIndex := None;
     cfg := cfg; jobServer := jobServer; indexSync := false |}.

Definition isActive (b : BleveEngine) : bool :=
  EnableIndexing (BleveSettings (cfg b))
  && bool_decide (IndexDir (BleveSettings (cfg b)) ≠ "").

Definition IsActive : M bool :=
  b <- getEngine;; ret (isActive b).

Definition Start : M (option AppError) :=
  b <- getEngine;;
  if negb (EnableIndexing (BleveSettings (cfg b)))
     || bool_decide (IndexDir (BleveSettings (cfg b)) = "")
  then ret None
  else
    mlog_Warn "Starting Bleve";;
    '(index, err) <- createOrOpenIndex (cfg b) "posts" getPostIndexMapping;;
    setPostIndex index;;
    match err with
    | Some err =>
        ret (Some (NewAppError "Bleveengine.Start"
                     "bleveengine.create_post_index.error" err
                     StatusInternalServerError))
    | None =>
        '(index, err) <- createOrOpenIndex (cfg b) "users" getUserIndexMapping;;
        setUserIndex index;;
        match err with
        | Some err =>
            ret (Some (NewAppError "Bleveengine.Start"
                         "bleveengine.create_user_index.error" err
                         StatusInternalServerError))
        | None =>
            '(index, err) <-
              createOrOpenIndex (cfg b) "channels" getChannelIndexMapping;;
            setChannelIndex index;;
            match err with
            | Some err =>
                ret (Some (NewAppError "Bleveengine.Start"
                             "bleveengine.create_channel_index.error" err
                             StatusInternalServerError))
            | None => ret None
            end
        end
    end.

Definition Stop : M (option AppError) :=
  mlog_Warn "Stopping Bleve";;
  active <- IsActive;;
  if active then
    b <- getEngine;;
    err <- indexClose (postIndex b);;
    match err with
    | Some err =>
        ret (Some (NewAppError "Bleveengine.Stop"
                     "bleveengine.stop_post_index.error" err
                     StatusInternalServerError))
    | None =>
        err <- indexClose (userIndex b);;
        match err with
        | Some err =>
            ret (Some (NewAppError "Bleveengine.Stop"
                         "bleveengine.stop_user_index.error" err
                         StatusInternalServerError))
        | None =>
            err <- indexClose (channelIndex b);;
            match err with
            | Some err =>
                ret (Some (NewAppError "Bleveengine.Stop"
                             "bleveengine.stop_channel_index.error" err
                             StatusInternalServerError))
            | None => ret None
            end
        end
    end
  else ret None.

Definition RefreshIndexes : M (option AppError) := ret None.

Definition TestConfig (cfg : Config) : M (option AppError) :=
  mlog_Warn "TestConfig Bleve";; ret None.

Definition PurgeIndexes : M (option AppError) :=
  mlog_Warn "PurgeIndexes Bleve";; ret None.

(** [cutoff] is a [time.Time]; the body never reads it. *)
Definition DataRetentionDeleteIndexes (cutoff : Z) : M (option AppError) :=
  ret None.

Definition UpdateConfig (cfg : Config) : M unit :=
  active <- IsActive;;
  if negb active && EnableIndexing (BleveSettings cfg)
     && bool_decide (IndexDir (BleveSettings cfg) ≠ "")
  then
    Stop;;
    setCfg cfg;;
    Start;;
    ret tt
  else setCfg cfg.

End Methods.

Section Search.
Context `{SearchParamsDates} `{BleveEnv}.

(** [for _, r := range results.Hits { ids = append(ids, r.ID) }] on
    [ids := []string{}] *)
Definition hitIds (results : SearchResult) : Go.slice string :=
  Some (Go.range_append ID (Hits results) []).

(** *** Posts *)

Definition SearchPosts (channels : list Channel)
    (searchParams : list SearchParams) (page perPage : Z)
    : M (Go.slice string * PostSearchMatches * option AppError) :=
  match postsQuery channels searchParams with
  | None => panic "index out of range"
  | Some query =>
      let search := NewSearchRequest query in
      b <- getEngine;;
      r <- indexSearch (postIndex b) search;;
      match r with
      | inr err =>
          ret (None, None,
               Some (NewAppError "Bleveengine.SearchPosts"
                       "bleveengine.search_posts.error" err
                       StatusInternalServerError))
      | inl results =>
          let postIds := hitIds results in
          let matches : PostSearchMatches := Some ∅ in
          ret (postIds, matches, None)
      end
  end.

(** *** Users *)

(** The prefix query on the suggestion field the options select. *)
Definition termPrefixQuery (term : string) (options : UserSearchOptions) : Query :=
  let termQ := NewPrefixQuery (strings_ToLower term) in
  if AllowFullNames options
  then SetField "SuggestionsWithFullname" termQ
  else SetField "SuggestionsWithoutFullname" termQ.

(** [restrictedToChannels != nil && len(restrictedToChannels) == 0] *)
Definition presentAndEmpty (restrictedToChannels : Go.slice string) : bool :=
  bool_decide (restrictedToChannels ≠ None)
  && bool_decide (Go.len restrictedToChannels = 0).

(** The first query of [SearchUsersInChannel]: the users in the channel. *)
Definition uchanQuery (channelId term : string) (options : UserSearchOptions) : Query :=
  let queries := [] in
  let queries :=
    if bool_decide (term ≠ "")
    then queries ++ [termPrefixQuery term options] else queries in
  let channelIdQ := NewTermQuery channelId in
  let channelIdQ := SetField "ChannelsIds" channelIdQ in
  let queries := queries ++ [channelIdQ] in
  NewConjunctionQuery queries.

(** Its second query: the users of the team outside the channel. *)
Definition nuchanQuery (teamId channelId : string)
    (restrictedToChannels : Go.slice string) (term : string)
    (options : UserSearchOptions) : Query :=
  let boolQ := NewBooleanQuery in
  let boolQ :=
    if bool_decide (term ≠ "")
    then AddMust [termPrefixQuery term options] boolQ else boolQ in
  let teamIdQ := NewTermQuery teamId in
  let teamIdQ := SetField "TeamsIds" teamIdQ in
  let boolQ := AddMust [teamIdQ] boolQ in
  let outsideChannelIdQ := NewTermQuery channelId in
  let outsideChannelIdQ := SetField "ChannelsIds" outsideChannelIdQ in
  let boolQ := AddMustNot [outsideChannelIdQ] boolQ in
  if bool_decide (0 < Go.len restrictedToChannels) then
    let restrictedChannelsQ :=
      foldl (λ restrictedChannelsQ channelId,
               let restrictedChannelQ := NewTermQuery channelId in
               AddQuery [restrictedChannelQ] restrictedChannelsQ)
            (NewDisjunctionQuery []) (Go.elems restrictedToChannels) in
    AddMust [restrictedChannelsQ] boolQ
  else boolQ.

Definition SearchUsersInChannel (teamId channelId : string)
    (restrictedToChannels : Go.slice string) (term : string)
    (options : UserSearchOptions)
    : M (Go.slice string * Go.slice string * option AppError) :=
  if presentAndEmpty restrictedToChannels then ret (Some [], Some [], None)
  else
    let query := uchanQuery channelId term options in
    b <- getEngine;;
    r <- indexSearch (userIndex b) (NewSearchRequest query);;
    match r with
    | inr err =>
        ret (None, None,
             Some (NewAppError "Bleveengine.SearchUsersInChannel"
                     "bleveengine.search_users_in_channel.uchan.error" err
                     StatusInternalServerError))
    | inl uchan =>
        let boolQ := nuchanQuery teamId channelId restrictedToChannels term options in
        b <- getEngine;;
        r <- indexSearch (userIndex b) (NewSearchRequest boolQ);;
        match r with
        | inr err =>
            ret (None, None,
                 Some (NewAppError "Bleveengine.SearchUsersInChannel"
                         "bleveengine.search_users_in_channel.nuchan.error" err
                         StatusInternalServerError))
        | inl nuchan =>
            let uchanIds := hitIds uchan in
            let nuchanIds := hitIds nuchan in
            ret (uchanIds, nuchanIds, None)
        end
    end.

(** The query of [SearchUsersInTeam] ([rootQ]), built once the guard on a
    present and empty restriction list has let the call through. *)
Definition rootQuery (teamId : string) (restrictedToChannels : Go.slice string)
    (term : string) (options : UserSearchOptions) : Query :=
  if bool_decide (term = "") && bool_decide (teamId = "")
     && bool_decide (restrictedToChannels = None)
  then NewMatchAllQuery
  else
    let boolQ := NewBooleanQuery in
    let boolQ :=
      if bool_decide (term ≠ "")
      then AddMust [termPrefixQuery term options] boolQ else boolQ in
    if bool_decide (0 < Go.len restrictedToChannels) then
      let restrictedChannelsQ :=
        Go.range_append
          (λ channelId,
             let channelIdQ := NewTermQuery channelId in
             SetField "ChannelsIds" channelIdQ)
          (Go.elems restrictedToChannels) [] in
      AddMust [NewDisjunctionQuery restrictedChannelsQ] boolQ
    else
      if bool_decide (teamId ≠ "") then
        let teamIdQ := NewTermQuery teamId in
        let teamIdQ := SetField "TeamsIds" teamIdQ in
        AddMust [teamIdQ] boolQ
      else boolQ.

Definition SearchUsersInTeam (teamId : string)
    (restrictedToChannels : Go.slice string) (term : string)
    (options : UserSearchOptions) : M (Go.slice string * option AppError) :=
  if presentAndEmpty restrictedToChannels then ret (Some [], None)
  else
    let rootQ := rootQuery teamId restrictedToChannels term options in
    let search := NewSearchRequest rootQ in
    b <- getEngine;;
    r <- indexSearch (userIndex b) search;;
    match r with
    | inr err =>
        ret (None,
             Some (NewAppError "Bleveengine.SearchUsersInTeam"
                     "bleveengine.search_users_in_team.error" err
                     StatusInternalServerError))
    | inl results =>
        let usersIds := hitIds results in
        ret (usersIds, None)
    end.

End Search.

(** ** Channels and the engine's flags *)

Section Channels.
Context `{SearchParamsDates} `{BleveEnv}.

(** The query of [SearchChannels]. *)
Definition channelsQuery (teamId term : string) : Query :=
  let teamIdQ := NewTermQuery teamId in
  let teamIdQ := SetField "TeamId" teamIdQ in
  let queries := [teamIdQ] in
  let queries :=
    if bool_decide (term ≠ "") then
      let nameSuggestQ := NewPrefixQuery (strings_ToLower term) in
      let nameSuggestQ := SetField "NameSuggest" nameSuggestQ in
      queries ++ [nameSuggestQ]
    else queries in
  NewConjunctionQuery queries.

Definition SearchChannels (teamId term : string)
    : M (Go.slice string * option AppError) :=
  let query := NewSearchRequest (channelsQuery teamId term) in
  b <- getEngine;;
  r <- indexSearch (channelIndex b) query;;
  match r with
  | inr err =>
      ret (None,
           Some (NewAppError "Bleveengine.SearchChannels"
                   "bleveengine.search_channels.error" err
                   StatusInternalServerError))
  | inl results =>
      let channelIds := hitIds results in
      ret (channelIds, None)
  end.

Definition IsIndexingSync : M bool :=
  b <- getEngine;; ret (indexSync b).

Definition GetVersion : M Z := ret 0%Z.

Definition GetName : M string := ret "bleve".

Definition IsAutocompletionEnabled : M bool :=
  b <- getEngine;; ret (EnableAutocomplete (BleveSettings (cfg b))).

Definition IsIndexingEnabled : M bool :=
  b <- getEngine;; ret (EnableIndexing (BleveSettings (cfg b))).

Definition IsSearchEnabled : M bool :=
  b <- getEngine;; ret (EnableSearching (BleveSettings (cfg b))).

End Channels.

(** ** A small concrete world

    An instance of the two interfaces on which the engine can be run: the
    disk is the list of index directories that exist, an index handle is its
    path, and each index answers every search with a fixed list of hits. *)
Module Sim.

Definition dayStart (date : string) : Z :=
  if bool_decide (date = "2024-01-05") then 1704412800000%Z
  else if bool_decide (date = "2024-02-01") then 1706745600000%Z
  else 0%Z.

Definition dayEnd (date : string) : Z := (dayStart date + 86399999)%Z.

#[export] Instance dates : SearchParamsDates := {|
  GetOnDateMillis p := (dayStart (OnDate p), dayEnd (OnDate p));
  GetAfterDateMillis p := dayEnd (AfterDate p);
  GetBeforeDateMillis p := dayStart (BeforeDate p);
  GetExcludedAfterDateMillis p := dayEnd (ExcludedAfterDate p);
  GetExcludedBeforeDateMillis p := dayStart (ExcludedBeforeDate p);
  GetExcludedDateMillis p := (dayStart (ExcludedDate p), dayEnd (ExcludedDate p));
|}.

Definition lowerAscii (a : ascii) : ascii :=
  let n := nat_of_ascii a in
  if (65 <=? n)%nat && (n <=? 90)%nat then ascii_of_nat (n + 32) else a.

Fixpoint toLower (s : string) : string :=
  match s with
  | EmptyString => EmptyString
  | String a s' => String (lowerAscii a) (toLower s')
  end.

Definition join (dir name : string) : string :=
  String.append dir (String.append "/" name).

Definition open (path : string) (disk : list string) : (string + string) * list string :=
  if bool_decide (path ∈ disk) then (inl path, disk)
  else (inr "cannot open index, path does not exist", disk).

Definition new (path : string) (_ : IndexMappingImpl) (disk : list string)
    : (string + string) * list string :=
  (inl path, disk ++ [path]).

Definition close (_ : string) (disk : list string) : option string * list string :=
  (None, disk).

Definition hits (ids : list string) : SearchResult :=
  {| Hits := map (λ id, {| ID := id |}) ids |}.

Definition search (index : string) (_ : SearchRequest) (disk : list string)
    : (SearchResult + string) * list string :=
  if bool_decide (index = "data/posts.bleve") then (inl (hits ["p1"; "p2"; "p3"]), disk)
  else if bool_decide (index = "data/users.bleve") then (inl (hits ["u1"; "u2"]), disk)
  else (inr "index is closed", disk).

#[export] Instance env : BleveEnv := {|
  World := list string;
  Handle := string;
  JobServer := unit;
  bleve_Open := open;
  bleve_New := new;
  Index_Close := close;
  Index_Search := search;
  filepath_Join := join;
  strings_ToLower := toLower;
|}.

Definition settings (indexing : bool) (dir : string) : Config :=
  {| BleveSettings := {| EnableIndexing := indexing; IndexDir := dir;
                         EnableSearching := true; EnableAutocomplete := true |} |}.

(** An engine started on ["data"], and one that was never started. *)
Definition started : BleveEngine :=
  {| postIndex := Some "data/posts.bleve"; userIndex := Some "data/users.bleve";
     channelIndex := Some "data/channels.bleve"; cfg := settings true "data";
     jobServer := None; indexSync := false |}.

Definition idle : BleveEngine := NewBleveEngine (settings false "") None.

Definition running : State :=
  {| engine := started;
     world := ["data/posts.bleve"; "data/users.bleve"; "data/channels.bleve"];
     trace := [] |}.

Definition fresh : State := {| engine := idle; world := []; trace := [] |}.

Definition params (terms : string) : SearchParams :=
  {| Terms := terms; OrTerms := false;
     InChannels := []; ExcludedChannels := [];
     FromUsers := []; ExcludedUsers := [];
     AfterDate := ""; ExcludedAfterDate := "";
     BeforeDate := ""; ExcludedBeforeDate := "";
     OnDate := ""; ExcludedDate := "" |}.

Definition options : UserSearchOptions := {| AllowFullNames := true |}.

Definition visible : list Channel := [{| Id := "c1" |}; {| Id := "c2" |}].

(** A first element with every kind of filter set, [OnDate] included. *)
Definition first : SearchParams :=
  {| Terms := "deploy"; OrTerms := true;
     InChannels := ["c1"]; ExcludedChannels := ["c3"];
     FromUsers := ["u1"]; ExcludedUsers := ["u2"];
     AfterDate := "2024-02-01"; ExcludedAfterDate := "2024-02-01";
     BeforeDate := "2024-02-01"; ExcludedBeforeDate := "2024-02-01";
     OnDate := "2024-01-05"; ExcludedDate := "2024-02-01" |}.

(** Two later elements with the same terms and different filters. *)
Definition laterA : SearchParams :=
  {| Terms := "rollback"; OrTerms := true;
     InChannels := ["c7"]; ExcludedChannels := [];
     FromUsers := []; ExcludedUsers := ["u7"];
     AfterDate := ""; ExcludedAfterDate := "";
     BeforeDate := ""; ExcludedBeforeDate := "";
     OnDate := "2024-02-01"; ExcludedDate := "" |}.

Definition laterB : SearchParams :=
  {| Terms := "rollback"; OrTerms := true;
     InChannels := []; ExcludedChannels := ["c8"];
     FromUsers := ["u8"]; ExcludedUsers := [];
     AfterDate := "2024-01-05"; ExcludedAfterDate := "";
     BeforeDate := ""; ExcludedBeforeDate := "2024-01-05";
     OnDate := ""; ExcludedDate := "2024-01-05" |}.

End Sim.

(** ** A world with failures

    A second instance of [BleveEnv]: an index cannot be created at
    ["ro/users.bleve"], cannot be closed when its handle is
    ["bad/users.bleve"], and answers a search only when it lives under
    ["data/"]. *)
Module Lab.

Definition open (path : string) (disk : list string) : (string + string) * list string :=
  if bool_decide (path ∈ disk) then (inl path, disk)
  else (inr "cannot open index, path does not exist", disk).

Definition new (path : string) (_ : IndexMappingImpl) (disk : list string)
    : (string + string) * list string :=
  if bool_decide (path = "ro/users.bleve") then (inr "permission denied", disk)
  else (inl path, disk ++ [path]).

Definition close (index : string) (disk : list string) : option string * list string :=
  if bool_decide (index = "bad/users.bleve") then (Some "close failed", disk)
  else (None, disk).

Definition search (index : string) (_ : SearchRequest) (disk : list string)
    : (SearchResult + string) * list string :=
  if bool_decide (index = "data/posts.bleve") then (inl (Sim.hits ["p1"; "p2"]), disk)
  else if bool_decide (index = "data/users.bleve") then (inl (Sim.hits ["u1"]), disk)
  else if bool_decide (index = "data/channels.bleve")
       then (inl (Sim.hits ["ch1"; "ch2"]), disk)
  else (inr "index is closed", disk).

#[export] Instance env : BleveEnv := {|
  World := list string;
  Handle := string;
  JobServer := unit;
  bleve_Open := open;
  bleve_New := new;
  Index_Close := close;
  Index_Search := search;
  filepath_Join := Sim.join;
  strings_ToLower := Sim.toLower;
|}.

Definition engineOn (dir : string) : BleveEngine :=
  {| postIndex := Some (Sim.join dir "posts.bleve");
     userIndex := Some (Sim.join dir "users.bleve");
     channelIndex := Some (Sim.join dir "channels.bleve");
     cfg := Sim.settings true dir;
     jobServer := None; indexSync := false |}.

(** An engine started on [dir], with its three indexes on disk. *)
Definition runningOn (dir : string) : State :=
  {| engine := engineOn dir;
     world := [Sim.join dir "posts.bleve"; Sim.join dir "users.bleve";
               Sim.join dir "channels.bleve"];
     trace := [] |}.

(** An engine configured for [dir] that was never started, on an empty
    disk. *)
Definition unstarted (dir : string) : State :=
  {| engine := NewBleveEngine (Sim.settings true dir) None;
     world := []; trace := [] |}.

(** The state [Start] leaves when it has created the three indexes of
    [unstarted dir]. *)
Definition justStarted (dir : string) : State :=
  {| engine := engineOn dir;
     world := world (runningOn dir);
     trace := [EvWarn "Starting Bleve";
               EvOpen (Sim.join dir "posts.bleve");
               EvNew (Sim.join dir "posts.bleve") getPostIndexMapping;
               EvOpen (Sim.join dir "users.bleve");
               EvNew (Sim.join dir "users.bleve") getUserIndexMapping;
               EvOpen (Sim.join dir "channels.bleve");
               EvNew (Sim.join dir "channels.bleve") getChannelIndexMapping] |}.

End Lab.

(** The search requests among a list of events. *)
Definition searched `{BleveEnv} (evs : list Event) : list Query :=
  flat_map (λ e, match e with
                 | EvSearch _ req => [RequestQuery req]
                 | _ => []
                 end) evs.

Definition mustClauses (q : Query) : list Query :=
  match q with BooleanQuery must _ _ => must | _ => [] end.

Definition mustNotClauses (q : Query) : list Query :=
  match q with BooleanQuery _ _ mustNot => mustNot | _ => [] end.

(** Two parameter sets with the same text terms and the same combination
    flag. *)
Definition sameTerms (p q : SearchParams) : Prop :=
  Terms p = Terms q ∧ OrTerms p = OrTerms q.

(** Does a query carry a term filter on [field] for [value] among its
    top-level MUST clauses? *)
Definition hasMustTerm (field value : string) (q : Query) : bool :=
  existsb (λ c, match c with
                | TermQuery t f => bool_decide (t = value) && bool_decide (f = field)
                | _ => false
                end) (mustClauses q).

(** The pieces of the query of a post search. *)
Definition messageQuery (params : SearchParams) : Query :=
  MatchQuery (Terms params) "Message".

Definition visibilityQuery (channels : list Channel) : Query :=
  DisjunctionQuery (map (λ channel, TermQuery (Id channel) "ChannelId") channels).

Definition allTermsQuery (p : SearchParams) (ps : list SearchParams) : Query :=
  if OrTerms p then DisjunctionQuery (map messageQuery ps)
  else ConjunctionQuery (map messageQuery ps).

(** The first value stored under [key]. *)
Fixpoint assoc {A} (key : string) (l : list (string * A)) : option A :=
  match l with
  | [] => None
  | (k, v) :: rest => if bool_decide (k = key) then Some v else assoc key rest
  end.

(** The field mapping an index declares for [field] in its default document
    mapping. *)
Definition mappedAs (im : IndexMappingImpl) (field : string) : option FieldMapping :=
  match assoc "_default" im with
  | Some dm => assoc field dm
  | None => None
  end.

Definition sameMapping (a b : FieldMapping) : bool :=
  match a, b with
  | keywordMapping, keywordMapping
  | standardMapping, standardMapping
  | dateMapping, dateMapping => true
  | _, _ => false
  end.

(** Does the index declare [field] with the mapping [fm]? *)
Definition declares (im : IndexMappingImpl) (field : string) (fm : FieldMapping) : bool :=
  match mappedAs im field with
  | Some fm' => sameMapping fm' fm
  | None => false
  end.

(** A query fits an index mapping when each of its leaves names a field the
    mapping declares with the analysis the leaf relies on: exact terms and
    prefixes on keyword fields, text matches on standard-analysed fields,
    numeric ranges on numeric fields. *)
Fixpoint fitsMapping (im : IndexMappingImpl) (q : Query) : bool :=
  match q with
  | TermQuery _ f | PrefixQuery _ f => declares im f keywordMapping
  | MatchQuery _ f => declares im f standardMapping
  | NumericRangeQuery _ _ f => declares im f dateMapping
  | MatchAllQuery => true
  | ConjunctionQuery qs | DisjunctionQuery qs => forallb (fitsMapping im) qs
  | BooleanQuery must should mustNot =>
      forallb (fitsMapping im) must && forallb (fitsMapping im) should
      && forallb (fitsMapping im) mustNot
  end.

(** The handles closed among a list of events, in order. *)
Definition closed `{BleveEnv} (evs : list Event) : list Handle :=
  flat_map (λ e, match e with EvClose h => [h] | _ => [] end) evs.

(** Where the engine keeps the index called [name]. *)
Definition indexPath `{BleveEnv} (b : BleveEngine) (name : string) : string :=
  filepath_Join (IndexDir (BleveSettings (cfg b))) (String.append name ".bleve").

(** The paths the engine tried to open or create among a list of events. *)
Definition touched `{BleveEnv} (evs : list Event) : list string :=
  flat_map (λ e, match e with
                 | EvOpen path | EvNew path _ => [path]
                 | _ => []
                 end) evs.

(** * Properties *)

(** ** Loops that append *)

Lemma range_append_map {A B} (f : A → B) (l : list A) (acc : list B) :
  Go.range_append f l acc = acc ++ map f l.
Proof.
  unfold Go.range_append. revert acc.
  induction l as [|x l IH]; intros acc; simpl.
  - by rewrite app_nil_r.
  - by rewrite IH, <- app_assoc.
Qed.

Lemma flat_map_nil {A B} (f : A → list B) (l : list A) :
  (∀ x, f x = []) → flat_map f l = [].
Proof. intros Hf. induction l as [|x l IH]; simpl; [done|]. by rewrite Hf, IH. Qed.

Lemma flat_map_map {A B C} (g : B → list C) (f : A → B) (l : list A) :
  flat_map g (map f l) = flat_map (λ x, g (f x)) l.
Proof. induction l as [|x l IH]; simpl; [done|]. by rewrite IH. Qed.

(** ** The clauses of a post search *)

Section PostQueryFacts.
Context `{SearchParamsDates}.


(** Past the first element an iteration only appends a term query. *)
Lemma paramsLoop_later (i : nat) (ps : list SearchParams) (c : PostClauses) :
  paramsLoop (S i) ps c =
    {| termQueries := termQueries c ++ map messageQuery ps;
       filters := filters c;
       notFilters := notFilters c |}.
Proof.
  revert i c. induction ps as [|p ps IH]; intros i c; simpl.
  - rewrite app_nil_r. by destruct c.
  - rewrite IH. simpl. by rewrite <- app_assoc.
Qed.

Lemma globalFilters_termQueries (p : SearchParams) (c : PostClauses) :
  termQueries (globalFilters p c) = termQueries c.
Proof.
  unfold globalFilters.
  repeat (case_bool_decide || case_match); simpl; try done.
  all: destruct (_ || _); done.
Qed.

(** The clauses of a non-empty list: the filters are those of the first
    element, the term queries come one per element. *)
Lemma postClauses_cons (p : SearchParams) (rest : list SearchParams) :
  postClauses (p :: rest) =
    {| termQueries := map messageQuery (p :: rest);
       filters := filters (globalFilters p noClauses);
       notFilters := notFilters (globalFilters p noClauses) |}.
Proof.
  unfold postClauses. simpl. rewrite paramsLoop_later. simpl.
  unfold paramsStep. simpl. by rewrite globalFilters_termQueries.
Qed.



(** The shape of the query built for a non-empty parameter list. *)
Lemma postsQuery_cons (channels : list Channel) (p : SearchParams)
    (rest : list SearchParams) :
  let fs := filters (globalFilters p noClauses) in
  let nfs := notFilters (globalFilters p noClauses) in
  postsQuery channels (p :: rest) =
    Some (BooleanQuery
            ([visibilityQuery channels; allTermsQuery p (p :: rest)]
               ++ match fs with [] => [] | _ => [ConjunctionQuery fs] end)
            [] nfs).
Proof.
  intros fs nfs. unfold postsQuery.
  rewrite postClauses_cons, range_append_map. cbn [lookup list_lookup].
  cbn [termQueries filters notFilters]. fold fs nfs.
  unfold allTermsQuery, visibilityQuery, NewDisjunctionQuery, NewConjunctionQuery.
  replace (map (λ channel, channelTerm (Id channel)) channels)
    with (map (λ channel, TermQuery (Id channel) "ChannelId") channels) by done.
  destruct fs as [|f fs'], nfs as [|n nfs']; simpl; destruct (OrTerms p); done.
Qed.

End PostQueryFacts.

Section PostQueryClaims.
Context `{SearchParamsDates}.

(** The filters of a search depend on the first element alone. *)
Lemma postClauses_filters_first (p : SearchParams) (rest rest' : list SearchParams) :
  filters (postClauses (p :: rest)) = filters (postClauses (p :: rest'))
  ∧ notFilters (postClauses (p :: rest)) = notFilters (postClauses (p :: rest')).
Proof. by rewrite !postClauses_cons. Qed.

Lemma sameTerms_messageQuery (ps ps' : list SearchParams) :
  Forall2 sameTerms ps ps' → map messageQuery ps = map messageQuery ps'.
Proof.
  induction 1 as [|p p' ps ps' [Ht _] _ IH]; simpl; [done|].
  unfold messageQuery at 1 3. by rewrite Ht, IH.
Qed.

(** C1. Two non-empty parameter lists with the same first element, whose
    later elements agree pairwise on [Terms] and [OrTerms] but may differ in
    every channel, user and date field, give the same filter clauses and the
    same must-not clauses, as collected by the loop and as placed in the
    built query (which is the same query altogether). *)
Theorem global_filters_only_from_first
    (channels : list Channel) (p : SearchParams) (rest rest' : list SearchParams) :
  Forall2 sameTerms rest rest' →
  filters (postClauses (p :: rest)) = filters (postClauses (p :: rest'))
  ∧ notFilters (postClauses (p :: rest)) = notFilters (postClauses (p :: rest'))
  ∧ postsQuery channels (p :: rest) = postsQuery channels (p :: rest')
  ∧ ∃ q, postsQuery channels (p :: rest) = Some q
       ∧ mustClauses q !! 2 =
           match filters (globalFilters p noClauses) with
           | [] => None
           | fs => Some (ConjunctionQuery fs)
           end
       ∧ mustNotClauses q = notFilters (globalFilters p noClauses).
Proof.
  intros Hrest.
  destruct (postClauses_filters_first p rest rest') as [Hf Hn].
  split; [done|]. split; [done|].
  rewrite !postsQuery_cons. unfold allTermsQuery.
  rewrite (sameTerms_messageQuery (p :: rest) (p :: rest'))
    by (constructor; [done|assumption]).
  split; [done|].
  eexists. split; [reflexivity|]. simpl.
  by destruct (filters (globalFilters p noClauses)).
Qed.

Lemma range_clauses_channelTerm (l : list string) :
  flat_map range_clauses (map channelTerm l) = [].
Proof. rewrite flat_map_map. by apply flat_map_nil. Qed.

Lemma range_clauses_userTerm (l : list string) :
  flat_map range_clauses (map userTerm l) = [].
Proof. rewrite flat_map_map. by apply flat_map_nil. Qed.

Lemma range_clauses_messageQuery (ps : list SearchParams) :
  flat_map range_clauses (map messageQuery ps) = [].
Proof. rewrite flat_map_map. by apply flat_map_nil. Qed.

Lemma range_clauses_visibility (channels : list Channel) :
  range_clauses (visibilityQuery channels) = [].
Proof. unfold visibilityQuery. simpl. rewrite flat_map_map. by apply flat_map_nil. Qed.

Lemma range_clauses_allTerms (p : SearchParams) (ps : list SearchParams) :
  range_clauses (allTermsQuery p ps) = [].
Proof.
  unfold allTermsQuery. destruct (OrTerms p); simpl; apply range_clauses_messageQuery.
Qed.

(** With [OnDate] set, the clauses of the first element: the channel and
    user disjunctions, then the day's range, all other date fields unread. *)
Lemma globalFilters_onDate (p : SearchParams) :
  OnDate p ≠ "" →
  let onDateQ :=
    NumericRangeQuery (Some (Go.float64 (GetOnDateMillis p).1))
                      (Some (Go.float64 (GetOnDateMillis p).2)) "CreateAt" in
  ∃ fs, filters (globalFilters p noClauses) = fs ++ [onDateQ]
      ∧ flat_map range_clauses fs = []
      ∧ flat_map range_clauses (notFilters (globalFilters p noClauses)) = [].
Proof.
  intros Hon onDateQ. unfold globalFilters.
  rewrite (bool_decide_eq_true_2 _ Hon).
  destruct (GetOnDateMillis p) as [before after] eqn:Hmillis.
  subst onDateQ. cbn [fst snd].
  rewrite !range_append_map. cbn [app].
  exists ((if bool_decide (0 < length (InChannels p))
           then [DisjunctionQuery (map channelTerm (InChannels p))] else [])
          ++ (if bool_decide (0 < length (FromUsers p))
              then [DisjunctionQuery (map userTerm (FromUsers p))] else [])).
  repeat case_bool_decide; cbn;
    rewrite ?app_nil_r, ?range_clauses_channelTerm, ?range_clauses_userTerm;
    done.
Qed.

(** C2. When the first element has a non-empty [OnDate], the built query
    holds exactly one numeric range clause: the range on [CreateAt] with
    both bounds given, from the start to the end of that day, a conjunct of
    the filter conjunction among the top-level MUST clauses.  No range sits
    among the MUST-NOT clauses, whatever [AfterDate], [BeforeDate],
    [ExcludedAfterDate], [ExcludedBeforeDate] and [ExcludedDate] hold. *)
Theorem onDate_is_the_only_date_clause
    (channels : list Channel) (p : SearchParams) (rest : list SearchParams) :
  OnDate p ≠ "" →
  let onDateQ :=
    NumericRangeQuery (Some (Go.float64 (GetOnDateMillis p).1))
                      (Some (Go.float64 (GetOnDateMillis p).2)) "CreateAt" in
  ∃ q fs, postsQuery channels (p :: rest) = Some q
        ∧ range_clauses q = [onDateQ]
        ∧ ConjunctionQuery fs ∈ mustClauses q
        ∧ onDateQ ∈ fs
        ∧ flat_map range_clauses (mustNotClauses q) = [].
Proof.
  intros Hon onDateQ.
  destruct (globalFilters_onDate p Hon) as (fs & Hfs & Hfs_none & Hnfs_none).
  fold onDateQ in Hfs.
  eexists. exists (fs ++ [onDateQ]).
  split; [apply postsQuery_cons|].
  rewrite Hfs. cbn [mustClauses mustNotClauses].
  assert (Hne : match fs ++ [onDateQ] with
                | [] => []
                | _ => [ConjunctionQuery (fs ++ [onDateQ])]
                end = [ConjunctionQuery (fs ++ [onDateQ])])
    by (destruct fs; done).
  rewrite Hne. repeat split.
  - cbn [range_clauses flat_map app].
    fold (range_clauses (visibilityQuery channels)).
    fold (range_clauses (allTermsQuery p (p :: rest))).
    rewrite range_clauses_visibility, range_clauses_allTerms.
    rewrite Hnfs_none, flat_map_app, Hfs_none. done.
  - set_solver.
  - set_solver.
  - done.
Qed.

(** C3. For every list of visible channels and every non-empty parameter
    list, the first top-level MUST clause of the built query is the
    disjunction of one [ChannelId] term query per visible channel, in order,
    whatever channel filters the parameters carry. *)
Theorem visibility_disjunction_is_must
    (channels : list Channel) (p : SearchParams) (rest : list SearchParams) :
  ∃ must should mustNot,
    postsQuery channels (p :: rest) = Some (BooleanQuery must should mustNot)
    ∧ must !! 0 =
        Some (DisjunctionQuery
                (map (λ channel, TermQuery (Id channel) "ChannelId") channels)).
Proof. do 3 eexists. split; [apply postsQuery_cons|]. done. Qed.

(** C4. For every non-empty parameter list the second top-level MUST clause
    of the built query combines one [Message] match query per element, the
    first included, in order: in a disjunction when the first element's
    [OrTerms] is set and in a conjunction when it is not. *)
Theorem terms_combined_by_first_OrTerms
    (channels : list Channel) (p : SearchParams) (rest : list SearchParams) :
  ∃ must should mustNot,
    postsQuery channels (p :: rest) = Some (BooleanQuery must should mustNot)
    ∧ must !! 1 =
        Some (let perElement :=
                map (λ params, MatchQuery (Terms params) "Message") (p :: rest) in
              if OrTerms p then DisjunctionQuery perElement
              else ConjunctionQuery perElement).
Proof. do 3 eexists. split; [apply postsQuery_cons|]. done. Qed.

End PostQueryClaims.

(** ** Running the engine *)

Ltac unfold_monad :=
  unfold indexSearch, indexClose, bleveOpen, bleveNew, mlog_Warn,
    setPostIndex, setUserIndex, setChannelIndex, setCfg, IsActive,
    bind, ret, panic, getEngine, putEngine, emit, extern in *.

Section SearchFacts.
Context `{SearchParamsDates} `{BleveEnv}.

Lemma hitIds_map (results : SearchResult) :
  hitIds results = Some (map ID (Hits results)).
Proof. unfold hitIds. by rewrite range_append_map. Qed.

(** A search on an open index: one request leaves the engine, and the
    world moves as the index says. *)
Lemma indexSearch_open (index : Handle) (req : SearchRequest) (st : State) :
  indexSearch (Some index) req st =
    (Ok (Index_Search index req (world st)).1,
     {| engine := engine st;
        world := (Index_Search index req (world st)).2;
        trace := trace st ++ [EvSearch index req] |}).
Proof. unfold_monad. simpl. by destruct (Index_Search index req (world st)). Qed.

(** [SearchPosts] sends the built query, and nothing else, to the post
    index. *)
Lemma SearchPosts_request (channels : list Channel) (p : SearchParams)
    (rest : list SearchParams) (page perPage : Z) (st : State) (index : Handle) :
  postIndex (engine st) = Some index →
  ∃ query, postsQuery channels (p :: rest) = Some query
    ∧ trace (SearchPosts channels (p :: rest) page perPage st).2 =
        trace st ++ [EvSearch index (NewSearchRequest query)].
Proof.
  intros Hidx.
  eexists. split; [apply postsQuery_cons|].
  unfold SearchPosts. rewrite postsQuery_cons.
  unfold bind at 1, getEngine at 1. rewrite Hidx.
  unfold bind at 1. rewrite indexSearch_open.
  by destruct (Index_Search _ _ _) as [[results|err] w].
Qed.

(** C9. Whenever [SearchPosts] returns without an error, the match map it
    returns is the empty (non-nil) map, and the identifiers are those of the
    hits the post index gave for the built query, in the index's order,
    however many they are. *)
Theorem SearchPosts_matches_empty
    (channels : list Channel) (searchParams : list SearchParams)
    (page perPage : Z) (st st' : State)
    (postIds : Go.slice string) (matches : PostSearchMatches) :
  SearchPosts channels searchParams page perPage st
    = (Ok (postIds, matches, None), st') →
  matches = Some ∅
  ∧ ∃ index query results,
      postIndex (engine st) = Some index
      ∧ postsQuery channels searchParams = Some query
      ∧ (Index_Search index (NewSearchRequest query) (world st)).1 = inl results
      ∧ postIds = Some (map ID (Hits results)).
Proof.
  unfold SearchPosts.
  destruct (postsQuery channels searchParams) as [query|]; [|by unfold panic].
  unfold bind at 1, getEngine at 1.
  destruct (postIndex (engine st)) as [index|] eqn:Hidx; [|by unfold_monad].
  unfold bind at 1. rewrite indexSearch_open.
  destruct (Index_Search index _ (world st)) as [[results|err] w] eqn:Hsearch;
    unfold ret; simpl; intros [= <- <- <-].
  split; [done|]. exists index, query, results.
  rewrite Hsearch, <- hitIds_map. done.
Qed.

(** C6. With a restriction list that is present and empty, both user
    searches return at once: empty (non-nil) lists, no error, and the state
    they were called in, so that no request has reached an index. *)
Theorem empty_restriction_short_circuits
    (teamId channelId term : string) (options : UserSearchOptions) (st : State) :
  SearchUsersInChannel teamId channelId (Some []) term options st
    = (Ok (Some [], Some [], None), st)
  ∧ SearchUsersInTeam teamId (Some []) term options st
    = (Ok (Some [], None), st).
Proof. done. Qed.

(** C10. The four maintenance entry points return nil in every state and for
    every argument.  They leave the engine's fields and the world outside it
    as they were; [TestConfig] and [PurgeIndexes] write one warning to the
    log and do nothing else. *)
Theorem maintenance_entry_points_do_nothing
    (st : State) (c : Config) (cutoff : Z) :
  RefreshIndexes st = (Ok None, st)
  ∧ DataRetentionDeleteIndexes cutoff st = (Ok None, st)
  ∧ TestConfig c st =
      (Ok None, {| engine := engine st; world := world st;
                   trace := trace st ++ [EvWarn "TestConfig Bleve"] |})
  ∧ PurgeIndexes st =
      (Ok None, {| engine := engine st; world := world st;
                   trace := trace st ++ [EvWarn "PurgeIndexes Bleve"] |}).
Proof. done. Qed.

End SearchFacts.

(** ** Lifecycle *)

Section LifecycleFacts.
Context `{SearchParamsDates} `{BleveEnv}.

(** Opening or creating an index touches the world, never the engine, and
    begins by trying to open the path under the configured directory. *)
Lemma createOrOpenIndex_frame (c : Config) (name : string)
    (mapping : IndexMappingImpl) (st : State) :
  ∃ index err w evs,
    createOrOpenIndex c name mapping st =
      (Ok (index, err),
       {| engine := engine st; world := w;
          trace := trace st
                   ++ EvOpen (filepath_Join (IndexDir (BleveSettings c))
                                (String.append name ".bleve")) :: evs |}).
Proof.
  unfold createOrOpenIndex. unfold_monad. simpl.
  destruct (bleve_Open _ (world st)) as [[index|err] w]; simpl.
  - by exists (Some index), None, w, [].
  - destruct (bleve_New _ mapping w) as [[index|err'] w']; simpl;
      rewrite <- app_assoc; simpl; by do 4 eexists.
Qed.

Lemma bind_Ok {A B} (m : M A) (k : A → M B) (st st' : State) (a : A) :
  m st = (Ok a, st') → bind m k st = k a st'.
Proof. intros Hm. unfold bind. by rewrite Hm. Qed.

(** Runs the next [createOrOpenIndex] of the goal and the assignment of the
    handle it returns. *)
Ltac step_create i e w evs :=
  match goal with
  | |- context [bind (createOrOpenIndex ?c ?n ?m) ?k ?s] =>
      let Hrun := fresh "Hrun" in
      destruct (createOrOpenIndex_frame c n m s) as (i & e & w & evs & Hrun);
      rewrite (bind_Ok _ k _ _ _ Hrun); clear Hrun;
      unfold bind at 1, setPostIndex, setUserIndex, setChannelIndex,
        bind at 1, getEngine at 1, putEngine at 1; cbn [engine world trace]
  end.

(** [Start] always returns, keeps the configuration, and with an active
    configuration logs its warning and goes for the post index first. *)
Lemma Start_runs (st : State) :
  ∃ r st', Start st = (Ok r, st')
    ∧ cfg (engine st') = cfg (engine st)
    ∧ (isActive (engine st) = true →
       ∃ evs, trace st' =
                trace st
                ++ [EvWarn "Starting Bleve";
                    EvOpen (filepath_Join (IndexDir (BleveSettings (cfg (engine st))))
                              "posts.bleve")]
                ++ evs).
Proof.
  unfold Start, isActive.
  unfold bind at 1, getEngine at 1.
  destruct (EnableIndexing (BleveSettings (cfg (engine st)))) eqn:Hen; simpl.
  2: { do 2 eexists. split; [reflexivity|]. split; [done|]. done. }
  case_bool_decide as Hdir; simpl.
  { do 2 eexists. split; [reflexivity|]. split; [done|].
    rewrite bool_decide_eq_false_2 by (by intros ?). done. }
  unfold bind at 1, mlog_Warn, emit at 1.
  step_create i1 e1 w1 evs1.
  destruct e1 as [e1|]; [|step_create i2 e2 w2 evs2].
  2: destruct e2 as [e2|]; [|step_create i3 e3 w3 evs3].
  3: destruct e3 as [e3|].
  all: do 2 eexists; (split; [reflexivity|]); (split; [done|]);
    intros _; eexists; cbn; rewrite <- !app_assoc; cbn; reflexivity.
Qed.

(** On an inactive engine [Stop] logs its warning and closes nothing. *)
Lemma Stop_inactive (st : State) :
  isActive (engine st) = false →
  Stop st = (Ok None, {| engine := engine st; world := world st;
                         trace := trace st ++ [EvWarn "Stopping Bleve"] |}).
Proof. intros Hin. unfold Stop. unfold_monad. simpl. by rewrite Hin. Qed.

(** C8. [UpdateConfig] on an inactive engine, given a configuration with
    indexing enabled and a non-empty index directory: [Stop] runs first, on
    the old configuration, so it logs and closes nothing; the configuration
    is then replaced; [Start] runs on the result, so it opens the indexes
    under the new directory.  In every other case the configuration is
    replaced and nothing else changes: the three index handles, the world
    and the trace are as before. *)
Theorem UpdateConfig_restarts_or_swaps (new : Config) (st : State) :
  (isActive (engine st) = false →
   EnableIndexing (BleveSettings new) = true →
   IndexDir (BleveSettings new) ≠ "" →
   ∃ stopped r st' evs,
     Stop st = (Ok None, stopped)
     ∧ engine stopped = engine st
     ∧ world stopped = world st
     ∧ Start {| engine := withCfg new (engine stopped);
                world := world stopped; trace := trace stopped |}
         = (Ok r, st')
     ∧ UpdateConfig new st = (Ok (), st')
     ∧ cfg (engine st') = new
     ∧ trace st' =
         trace st
         ++ [EvWarn "Stopping Bleve"; EvWarn "Starting Bleve";
             EvOpen (filepath_Join (IndexDir (BleveSettings new)) "posts.bleve")]
         ++ evs)
  ∧ (¬ (isActive (engine st) = false
        ∧ EnableIndexing (BleveSettings new) = true
        ∧ IndexDir (BleveSettings new) ≠ "") →
     ∃ st',
       UpdateConfig new st = (Ok (), st')
       ∧ cfg (engine st') = new
       ∧ postIndex (engine st') = postIndex (engine st)
       ∧ userIndex (engine st') = userIndex (engine st)
       ∧ channelIndex (engine st') = channelIndex (engine st)
       ∧ jobServer (engine st') = jobServer (engine st)
       ∧ indexSync (engine st') = indexSync (engine st)
       ∧ world st' = world st
       ∧ trace st' = trace st).
Proof.
  split.
  - intros Hinactive Hen Hdir.
    set (stopped := {| engine := engine st; world := world st;
                       trace := trace st ++ [EvWarn "Stopping Bleve"] |}).
    set (swapped := {| engine := withCfg new (engine stopped);
                       world := world stopped; trace := trace stopped |}).
    destruct (Start_runs swapped) as (r & st' & Hstart & Hcfg & Htrace).
    destruct Htrace as [evs Hevs].
    { unfold isActive. cbn. rewrite Hen. by apply bool_decide_eq_true_2. }
    exists stopped, r, st', evs.
    split; [by apply Stop_inactive|].
    split; [done|]. split; [done|]. split; [done|].
    split.
    + unfold UpdateConfig.
      unfold bind at 1, IsActive, bind at 1, getEngine at 1, ret at 1.
      rewrite Hinactive, Hen, (bool_decide_eq_true_2 _ Hdir). cbn [negb andb].
      rewrite (bind_Ok _ _ _ _ _ (Stop_inactive st Hinactive)).
      unfold bind at 1, setCfg, bind at 1, getEngine at 1, putEngine at 1.
      cbn [engine world trace].
      etrans; [apply (bind_Ok Start _ _ st' r); exact Hstart|reflexivity].
    + split; [by rewrite Hcfg|].
      rewrite Hevs. cbn. by rewrite <- app_assoc.
  - intros Hother. eexists. split.
    + unfold UpdateConfig.
      unfold bind at 1, IsActive, bind at 1, getEngine at 1, ret at 1.
      destruct (isActive (engine st)) eqn:Hact;
        destruct (EnableIndexing (BleveSettings new)) eqn:Hen;
        try case_bool_decide; cbn [negb andb]; try reflexivity.
      exfalso. by apply Hother.
    + done.
Qed.

End LifecycleFacts.

(** ** The queries of the user searches *)

Section UserQueryFacts.
Context `{SearchParamsDates} `{BleveEnv}.

Lemma termPrefixQuery_fields (term : string) (options : UserSearchOptions) :
  fields_of (termPrefixQuery term options) =
    [if AllowFullNames options then "SuggestionsWithFullname"
     else "SuggestionsWithoutFullname"].
Proof. unfold termPrefixQuery. by destruct (AllowFullNames options). Qed.

(** The restriction loop of [SearchUsersInChannel] adds one term query per
    channel, and none of them is given a field. *)
Lemma restricted_loop_in_channel (cs : list string) (acc : list Query) :
  foldl (λ restrictedChannelsQ channelId,
           let restrictedChannelQ := NewTermQuery channelId in
           AddQuery [restrictedChannelQ] restrictedChannelsQ)
        (DisjunctionQuery acc) cs
  = DisjunctionQuery (acc ++ map (λ channelId, TermQuery channelId "") cs).
Proof.
  revert acc. induction cs as [|c cs IH]; intros acc; simpl.
  - by rewrite app_nil_r.
  - by rewrite IH, <- app_assoc.
Qed.

Lemma nuchanQuery_restricted (teamId channelId term : string)
    (c : string) (cs : list string) (options : UserSearchOptions) :
  nuchanQuery teamId channelId (Some (c :: cs)) term options =
    BooleanQuery
      ((if bool_decide (term ≠ "") then [termPrefixQuery term options] else [])
         ++ [TermQuery teamId "TeamsIds";
             DisjunctionQuery (map (λ channelId, TermQuery channelId "") (c :: cs))])
      []
      [TermQuery channelId "ChannelsIds"].
Proof.
  unfold nuchanQuery. cbn [Go.len Go.elems length].
  rewrite bool_decide_eq_true_2 by lia.
  unfold NewDisjunctionQuery. rewrite restricted_loop_in_channel.
  by case_bool_decide.
Qed.

Lemma rootQuery_restricted (teamId term : string) (c : string) (cs : list string)
    (options : UserSearchOptions) :
  rootQuery teamId (Some (c :: cs)) term options =
    BooleanQuery
      ((if bool_decide (term ≠ "") then [termPrefixQuery term options] else [])
         ++ [DisjunctionQuery
               (map (λ channelId, TermQuery channelId "ChannelsIds") (c :: cs))])
      [] [].
Proof.
  unfold rootQuery. cbn [Go.len Go.elems length].
  rewrite (bool_decide_eq_false_2 (Some (c :: cs) = None)) by done.
  rewrite andb_false_r, range_append_map.
  rewrite bool_decide_eq_true_2 by lia.
  by case_bool_decide.
Qed.

Lemma rootQuery_unrestricted (teamId term : string) (options : UserSearchOptions) :
  teamId ≠ "" →
  rootQuery teamId None term options =
    BooleanQuery
      ((if bool_decide (term ≠ "") then [termPrefixQuery term options] else [])
         ++ [TermQuery teamId "TeamsIds"])
      [] [].
Proof.
  intros Hteam. unfold rootQuery. cbn [Go.len].
  rewrite (bool_decide_eq_false_2 (teamId = "")) by done.
  rewrite andb_false_r. cbn [andb].
  rewrite (bool_decide_eq_false_2 (0 < 0)) by lia.
  rewrite (bool_decide_eq_true_2 (teamId ≠ "")) by done.
  by case_bool_decide.
Qed.

Lemma rootQuery_unconstrained (options : UserSearchOptions) :
  rootQuery "" None "" options = MatchAllQuery.
Proof. done. Qed.

(** Past the guard, [SearchUsersInTeam] sends [rootQuery] to the user index
    and nothing else. *)
Lemma SearchUsersInTeam_request (teamId : string) (restricted : Go.slice string)
    (term : string) (options : UserSearchOptions) (st : State) (index : Handle) :
  userIndex (engine st) = Some index →
  presentAndEmpty restricted = false →
  trace (SearchUsersInTeam teamId restricted term options st).2 =
    trace st ++ [EvSearch index (NewSearchRequest (rootQuery teamId restricted term options))].
Proof.
  intros Hidx Hguard. unfold SearchUsersInTeam. rewrite Hguard.
  unfold bind at 1, getEngine at 1. rewrite Hidx.
  unfold bind at 1. rewrite indexSearch_open.
  by destruct (Index_Search _ _ _) as [[results|err] w].
Qed.

(** C7, amended.  For a restriction list that is not present-and-empty,
    [SearchUsersInTeam] builds one query and sends it, and nothing else, to
    the user index.  With a nil list and a team id, a [TeamsIds] term on that
    team id is one of its MUST clauses.  With a non-empty list, the field
    [TeamsIds] occurs nowhere in the query, whose MUST clauses hold the
    [ChannelsIds] disjunction over the list instead, whatever the term and
    the options.  With a nil list, no team id and no term, the query is the
    match-all query. *)
Theorem SearchUsersInTeam_team_filter
    (teamId : string) (restricted : Go.slice string) (term : string)
    (options : UserSearchOptions) :
  restricted ≠ Some [] →
  ∃ rootQ,
    (∀ (st : State) (index : Handle),
       userIndex (engine st) = Some index →
       trace (SearchUsersInTeam teamId restricted term options st).2 =
         trace st ++ [EvSearch index (NewSearchRequest rootQ)])
    ∧ (restricted = None → teamId ≠ "" →
       ∃ must, rootQ = BooleanQuery must [] []
               ∧ TermQuery teamId "TeamsIds" ∈ must)
    ∧ (0 < Go.len restricted →
       ∃ must, rootQ = BooleanQuery must [] []
               ∧ DisjunctionQuery
                   (map (λ channelId, TermQuery channelId "ChannelsIds")
                        (Go.elems restricted)) ∈ must
               ∧ "TeamsIds" ∉ fields_of rootQ)
    ∧ (restricted = None → teamId = "" → term = "" → rootQ = MatchAllQuery).
Proof.
  intros Hpresent.
  exists (rootQuery teamId restricted term options).
  split.
  { intros st index Hidx. apply SearchUsersInTeam_request; [done|].
    destruct restricted as [[|c cs]|]; done. }
  split; [|split].
  - intros -> Hteam. eexists. split; [by apply rootQuery_unrestricted|].
    set_solver.
  - destruct restricted as [[|c cs]|]; cbn [Go.len length]; [lia| |lia].
    intros _. eexists. split; [apply rootQuery_restricted|].
    split; [set_solver|].
    rewrite rootQuery_restricted. cbn [fields_of Go.elems].
    rewrite !app_nil_r, flat_map_app. cbn [flat_map fields_of].
    rewrite app_nil_r, flat_map_map. cbn [fields_of].
    intros [Hin|Hin]%elem_of_app.
    + case_bool_decide; cbn in Hin; [|by apply elem_of_nil in Hin].
      rewrite app_nil_r, termPrefixQuery_fields in Hin.
      apply list_elem_of_In in Hin.
      destruct (AllowFullNames options), Hin as [Hx|[]]; discriminate Hx.
    + apply list_elem_of_In in Hin. apply in_flat_map in Hin.
      destruct Hin as (x & _ & [Hx|[]]). discriminate Hx.
  - intros -> -> ->. apply rootQuery_unconstrained.
Qed.

End UserQueryFacts.

(** * Further properties of the engine *)

(** ** The filter clauses of a post search *)

Section PostFilterFacts.
Context `{SearchParamsDates}.

Lemma filters_addFilter (q : Query) (c : PostClauses) :
  filters (addFilter q c) = filters c ++ [q].
Proof. done. Qed.

Lemma notFilters_addFilter (q : Query) (c : PostClauses) :
  notFilters (addFilter q c) = notFilters c.
Proof. done. Qed.

Lemma filters_if_addFilter (b : bool) (q : Query) (c : PostClauses) :
  filters (if b then addFilter q c else c) = filters c ++ (if b then [q] else []).
Proof. destruct b; [done|by rewrite app_nil_r]. Qed.

Lemma notFilters_if_addFilter (b : bool) (q : Query) (c : PostClauses) :
  notFilters (if b then addFilter q c else c) = notFilters c.
Proof. by destruct b. Qed.

Lemma filters_if_addNotFilter (b : bool) (q : Query) (c : PostClauses) :
  filters (if b then addNotFilter q c else c) = filters c.
Proof. by destruct b. Qed.

Lemma notFilters_if_addNotFilter (b : bool) (q : Query) (c : PostClauses) :
  notFilters (if b then addNotFilter q c else c) = notFilters c ++ (if b then [q] else []).
Proof. destruct b; [done|by rewrite app_nil_r]. Qed.

(** The clauses the first element contributes, spelled out: inclusions
    first, then the date range, on the MUST side; exclusions, then the
    excluded ranges, on the MUST-NOT side. *)
Lemma globalFilters_clauses (p : SearchParams) :
  let disjunctionOf field ids :=
    if bool_decide (0 < length ids)
    then [DisjunctionQuery (map (λ id, TermQuery id field) ids)] else [] in
  let range lo hi := NumericRangeQuery lo hi "CreateAt" in
  filters (globalFilters p noClauses) =
    disjunctionOf "ChannelId" (InChannels p)
    ++ disjunctionOf "UserId" (FromUsers p)
    ++ (if bool_decide (OnDate p ≠ "") then
          [range (Some (Go.float64 (GetOnDateMillis p).1))
                 (Some (Go.float64 (GetOnDateMillis p).2))]
        else if bool_decide (AfterDate p ≠ "") || bool_decide (BeforeDate p ≠ "") then
          [range (if bool_decide (AfterDate p ≠ "")
                  then Some (Go.float64 (GetAfterDateMillis p)) else None)
                 (if bool_decide (BeforeDate p ≠ "")
                  then Some (Go.float64 (GetBeforeDateMillis p)) else None)]
        else [])
  ∧ notFilters (globalFilters p noClauses) =
    disjunctionOf "ChannelId" (ExcludedChannels p)
    ++ disjunctionOf "UserId" (ExcludedUsers p)
    ++ (if bool_decide (OnDate p ≠ "") then []
        else
          (if bool_decide (ExcludedAfterDate p ≠ "")
           then [range (Some (Go.float64 (GetExcludedAfterDateMillis p))) None]
           else [])
          ++ (if bool_decide (ExcludedBeforeDate p ≠ "")
              then [range None (Some (Go.float64 (GetExcludedBeforeDateMillis p)))]
              else [])
          ++ (if bool_decide (ExcludedDate p ≠ "")
              then [range (Some (Go.float64 (GetExcludedDateMillis p).1))
                          (Some (Go.float64 (GetExcludedDateMillis p).2))]
              else [])).
Proof.
  cbv zeta. unfold globalFilters.
  rewrite !range_append_map. cbn [app].
  destruct (GetOnDateMillis p) as [onLo onHi].
  destruct (GetExcludedDateMillis p) as [exLo exHi].
  cbn [fst snd].
  destruct (bool_decide (OnDate p ≠ ""));
    repeat first
      [ rewrite filters_addFilter | rewrite notFilters_addFilter
      | rewrite filters_if_addFilter | rewrite notFilters_if_addFilter
      | rewrite filters_if_addNotFilter | rewrite notFilters_if_addNotFilter ];
    cbn [filters notFilters noClauses app];
    rewrite <- ?app_assoc, ?app_nil_r; try done.
Qed.

Lemma positive_length_nonempty {A} (l : list A) :
  bool_decide (0 < length l) = bool_decide (l ≠ []).
Proof.
  destruct l; cbn [length].
  - rewrite !bool_decide_eq_false_2; [done|by intros ?|lia].
  - rewrite !bool_decide_eq_true_2; [done|done|lia].
Qed.

(** X1. The channel and user filters of the first element are placed by
    kind: a non-empty [InChannels] or [FromUsers] gives a disjunction of one
    exact term per identifier inside the filter conjunction, which is a
    top-level MUST clause; a non-empty [ExcludedChannels] or [ExcludedUsers]
    gives such a disjunction as a top-level MUST-NOT clause.  Channels are
    matched on [ChannelId], users on [UserId]. *)
Theorem channel_and_user_filters_placed
    (channels : list Channel) (p : SearchParams) (rest : list SearchParams) :
  let oneOf field ids := DisjunctionQuery (map (λ id, TermQuery id field) ids) in
  ∃ must mustNot,
    postsQuery channels (p :: rest) = Some (BooleanQuery must [] mustNot)
    ∧ (InChannels p ≠ [] →
       ∃ fs, must !! 2 = Some (ConjunctionQuery fs)
             ∧ oneOf "ChannelId" (InChannels p) ∈ fs)
    ∧ (FromUsers p ≠ [] →
       ∃ fs, must !! 2 = Some (ConjunctionQuery fs)
             ∧ oneOf "UserId" (FromUsers p) ∈ fs)
    ∧ (ExcludedChannels p ≠ [] → oneOf "ChannelId" (ExcludedChannels p) ∈ mustNot)
    ∧ (ExcludedUsers p ≠ [] → oneOf "UserId" (ExcludedUsers p) ∈ mustNot).
Proof.
  cbv zeta. do 2 eexists. split; [apply postsQuery_cons|].
  destruct (globalFilters_clauses p) as [Hf Hn]. cbv zeta in Hf, Hn.
  rewrite !positive_length_nonempty in Hf, Hn.
  rewrite Hf, Hn. clear Hf Hn.
  repeat split.
  - intros Hin. rewrite (bool_decide_eq_true_2 _ Hin).
    eexists. split; [reflexivity|]. set_solver.
  - intros Hfrom. rewrite (bool_decide_eq_true_2 _ Hfrom).
    case_bool_decide; (eexists; split; [reflexivity|]); set_solver.
  - intros Hex. rewrite (bool_decide_eq_true_2 _ Hex). set_solver.
  - intros Hex. rewrite (bool_decide_eq_true_2 _ Hex). set_solver.
Qed.

Lemma range_clauses_oneOf (field : string) (ids : list string) (b : bool) :
  flat_map range_clauses
    (if b then [DisjunctionQuery (map (λ id, TermQuery id field) ids)] else []) = [].
Proof.
  destruct b; [|done]. cbn. rewrite app_nil_r, flat_map_map. by apply flat_map_nil.
Qed.

Lemma range_clauses_filter_conjunction (fs : list Query) :
  flat_map range_clauses
    match fs with [] => [] | _ => [ConjunctionQuery fs] end
  = flat_map range_clauses fs.
Proof. destruct fs; cbn; by rewrite ?app_nil_r. Qed.

(** X2. When the first element has no [OnDate], the numeric ranges of the
    built query are read off the other date fields, in this order.  Under
    MUST: one range if [AfterDate] or [BeforeDate] is set, with a lower bound
    exactly when [AfterDate] is set and an upper bound exactly when
    [BeforeDate] is.  Under MUST-NOT: a range with only a lower bound for
    [ExcludedAfterDate], one with only an upper bound for
    [ExcludedBeforeDate], one with both bounds for [ExcludedDate].  All are
    on [CreateAt]. *)
Theorem date_clauses_without_OnDate
    (channels : list Channel) (p : SearchParams) (rest : list SearchParams) :
  OnDate p = "" →
  let range lo hi := NumericRangeQuery lo hi "CreateAt" in
  let given (date : string) (millis : Z) :=
    if bool_decide (date ≠ "") then Some (Go.float64 millis) else None in
  ∃ must mustNot,
    postsQuery channels (p :: rest) = Some (BooleanQuery must [] mustNot)
    ∧ flat_map range_clauses must =
        (if bool_decide (AfterDate p ≠ "") || bool_decide (BeforeDate p ≠ "")
         then [range (given (AfterDate p) (GetAfterDateMillis p))
                     (given (BeforeDate p) (GetBeforeDateMillis p))]
         else [])
    ∧ flat_map range_clauses mustNot =
        (if bool_decide (ExcludedAfterDate p ≠ "")
         then [range (Some (Go.float64 (GetExcludedAfterDateMillis p))) None]
         else [])
        ++ (if bool_decide (ExcludedBeforeDate p ≠ "")
            then [range None (Some (Go.float64 (GetExcludedBeforeDateMillis p)))]
            else [])
        ++ (if bool_decide (ExcludedDate p ≠ "")
            then [range (Some (Go.float64 (GetExcludedDateMillis p).1))
                        (Some (Go.float64 (GetExcludedDateMillis p).2))]
            else []).
Proof.
  intros Hon. cbv zeta. do 2 eexists. split; [apply postsQuery_cons|].
  destruct (globalFilters_clauses p) as [Hf Hn]. cbv zeta in Hf, Hn.
  rewrite (bool_decide_eq_false_2 (OnDate p ≠ "")) in Hf, Hn by (by intros []).
  rewrite Hf, Hn. clear Hf Hn. split.
  - rewrite flat_map_app. cbn [flat_map].
    rewrite range_clauses_visibility, range_clauses_allTerms. cbn [app].
    rewrite range_clauses_filter_conjunction, !flat_map_app, !range_clauses_oneOf. cbn [app].
    by destruct (_ || _).
  - rewrite !flat_map_app, !range_clauses_oneOf. cbn [app].
    by repeat case_bool_decide.
Qed.

(** X3. The built query has its two fixed MUST clauses and a third, the
    filter conjunction, exactly when the first element sets [InChannels],
    [FromUsers], [OnDate], [AfterDate] or [BeforeDate]; that conjunction is
    never empty.  It has no MUST-NOT clause exactly when [ExcludedChannels]
    and [ExcludedUsers] are empty and either [OnDate] is set or none of the
    three excluded dates is. *)
Theorem filter_clauses_present_iff_set
    (channels : list Channel) (p : SearchParams) (rest : list SearchParams) :
  ∃ first second more mustNot,
    postsQuery channels (p :: rest)
      = Some (BooleanQuery (first :: second :: more) [] mustNot)
    ∧ (InChannels p ≠ [] ∨ FromUsers p ≠ [] ∨ OnDate p ≠ ""
       ∨ AfterDate p ≠ "" ∨ BeforeDate p ≠ "" →
       ∃ f fs, more = [ConjunctionQuery (f :: fs)])
    ∧ (InChannels p = [] ∧ FromUsers p = [] ∧ OnDate p = ""
       ∧ AfterDate p = "" ∧ BeforeDate p = "" → more = [])
    ∧ (mustNot = [] ↔
       ExcludedChannels p = [] ∧ ExcludedUsers p = []
       ∧ (OnDate p ≠ ""
          ∨ ExcludedAfterDate p = "" ∧ ExcludedBeforeDate p = ""
            ∧ ExcludedDate p = "")).
Proof.
  do 4 eexists. split; [apply postsQuery_cons|].
  destruct (globalFilters_clauses p) as [Hf Hn]. cbv zeta in Hf, Hn.
  rewrite !positive_length_nonempty in Hf, Hn.
  rewrite Hf, Hn. clear Hf Hn.
  split; [|split].
  - intros Hset.
    repeat case_bool_decide; cbn [orb app]; try (by do 2 eexists).
    tauto.
  - intros (Hin & Hfrom & Hon & Hafter & Hbefore).
    rewrite !bool_decide_eq_false_2 by (intros Hne; by apply Hne). done.
  - repeat case_bool_decide; cbn [app]; split; try done;
      first [tauto | intuition discriminate].
Qed.

End PostFilterFacts.

(** ** Queries against the declared mappings *)

Section MappingFacts.
Context `{SearchParamsDates} `{BleveEnv}.

Lemma fits_terms (im : IndexMappingImpl) (field : string) (ids : list string) :
  declares im field keywordMapping = true →
  forallb (fitsMapping im) (map (λ id, TermQuery id field) ids) = true.
Proof.
  intros Hdecl. apply forallb_forall. intros q Hq.
  apply in_map_iff in Hq as (id & <- & _). exact Hdecl.
Qed.

Lemma fits_oneOf (im : IndexMappingImpl) (field : string) (ids : list string) (b : bool) :
  declares im field keywordMapping = true →
  forallb (fitsMapping im)
    (if b then [DisjunctionQuery (map (λ id, TermQuery id field) ids)] else []) = true.
Proof.
  intros Hdecl. destruct b; [|done]. cbn [forallb fitsMapping].
  by rewrite fits_terms.
Qed.

Lemma fits_filter_conjunction (im : IndexMappingImpl) (fs : list Query) :
  forallb (fitsMapping im) fs = true →
  forallb (fitsMapping im)
    match fs with [] => [] | _ => [ConjunctionQuery fs] end = true.
Proof.
  intros Hfs. destruct fs as [|q fs']; [done|].
  change (forallb (fitsMapping im) (q :: fs') && true = true). by rewrite Hfs.
Qed.

Lemma post_mapping_fields :
  declares getPostIndexMapping "ChannelId" keywordMapping = true
  ∧ declares getPostIndexMapping "UserId" keywordMapping = true
  ∧ declares getPostIndexMapping "Message" standardMapping = true
  ∧ declares getPostIndexMapping "CreateAt" dateMapping = true.
Proof. repeat split; vm_compute; reflexivity. Qed.

Lemma fits_range (im : IndexMappingImpl) (lo hi : option spec_float) (b : bool) :
  declares im "CreateAt" dateMapping = true →
  forallb (fitsMapping im) (if b then [NumericRangeQuery lo hi "CreateAt"] else []) = true.
Proof. intros Hdecl. destruct b; [|done]. cbn [forallb fitsMapping]. by rewrite Hdecl. Qed.

(** X4. Every query [SearchPosts] builds fits the mapping the post index is
    created with: its exact terms are on keyword fields ([ChannelId],
    [UserId]), its text matches on a standard-analysed field ([Message]) and
    its ranges on the numeric field ([CreateAt]). *)
Theorem posts_query_fits_post_mapping
    (channels : list Channel) (p : SearchParams) (rest : list SearchParams) :
  ∃ q, postsQuery channels (p :: rest) = Some q
       ∧ fitsMapping getPostIndexMapping q = true.
Proof.
  destruct post_mapping_fields as (Hchannel & Huser & Hmessage & Hcreate).
  eexists. split; [apply postsQuery_cons|].
  destruct (globalFilters_clauses p) as [Hf Hn]. cbv zeta in Hf, Hn.
  set (im := getPostIndexMapping) in *.
  assert (Hfs : forallb (fitsMapping im) (filters (globalFilters p noClauses)) = true).
  { rewrite Hf, !forallb_app, !fits_oneOf by assumption. cbn [andb].
    destruct (bool_decide (OnDate p ≠ "")); [by apply (fits_range im _ _ true)|].
    by apply fits_range. }
  assert (Hnfs : forallb (fitsMapping im) (notFilters (globalFilters p noClauses)) = true).
  { rewrite Hn, !forallb_app, !fits_oneOf by assumption. cbn [andb].
    destruct (bool_decide (OnDate p ≠ "")); [done|].
    by rewrite !forallb_app, !fits_range. }
  change (forallb (fitsMapping im)
            ([visibilityQuery channels; allTermsQuery p (p :: rest)]
               ++ match filters (globalFilters p noClauses) with
                  | [] => []
                  | _ => [ConjunctionQuery (filters (globalFilters p noClauses))]
                  end)
          && true
          && forallb (fitsMapping im) (notFilters (globalFilters p noClauses)) = true).
  rewrite Hnfs, forallb_app, (fits_filter_conjunction _ _ Hfs).
  change (forallb (fitsMapping im)
            (map (λ channel, TermQuery (Id channel) "ChannelId") channels)
          && (fitsMapping im (allTermsQuery p (p :: rest)) && true)
          && true && true && true = true).
  assert (Hvisible : forallb (fitsMapping im)
            (map (λ channel, TermQuery (Id channel) "ChannelId") channels) = true).
  { apply forallb_forall. intros q Hq.
    apply in_map_iff in Hq as (c & <- & _). exact Hchannel. }
  assert (Hterms : fitsMapping im (allTermsQuery p (p :: rest)) = true).
  { unfold allTermsQuery.
    assert (forallb (fitsMapping im) (map messageQuery (p :: rest)) = true).
    { apply forallb_forall. intros q Hq.
      apply in_map_iff in Hq as (x & <- & _). exact Hmessage. }
    by destruct (OrTerms p). }
  by rewrite Hvisible, Hterms.
Qed.

Lemma user_mapping_fields :
  declares getUserIndexMapping "SuggestionsWithFullname" keywordMapping = true
  ∧ declares getUserIndexMapping "SuggestionsWithoutFullname" keywordMapping = true
  ∧ declares getUserIndexMapping "TeamsIds" keywordMapping = true
  ∧ declares getUserIndexMapping "ChannelsIds" keywordMapping = true
  ∧ declares getUserIndexMapping "" keywordMapping = false.
Proof. repeat split; vm_compute; reflexivity. Qed.

Lemma channel_mapping_fields :
  declares getChannelIndexMapping "TeamId" keywordMapping = true
  ∧ declares getChannelIndexMapping "NameSuggest" keywordMapping = true.
Proof. repeat split; vm_compute; reflexivity. Qed.

Lemma fits_termPrefixQuery (term : string) (options : UserSearchOptions) :
  fitsMapping getUserIndexMapping (termPrefixQuery term options) = true.
Proof.
  destruct user_mapping_fields as (Hwith & Hwithout & _).
  unfold termPrefixQuery. by destruct (AllowFullNames options).
Qed.

Lemma fits_optional_prefix (term : string) (options : UserSearchOptions) (b : bool) :
  forallb (fitsMapping getUserIndexMapping)
    (if b then [termPrefixQuery term options] else []) = true.
Proof.
  destruct b; [|done]. cbn [forallb]. by rewrite fits_termPrefixQuery.
Qed.

(** X5. The queries of the user searches against the mapping the user
    index is created with.  The query of [SearchUsersInTeam] and the first
    query of [SearchUsersInChannel] always fit: their terms and prefixes are
    on keyword fields of the index.  The second query of
    [SearchUsersInChannel] fits exactly when the restriction list has no
    element: a restricting term names a field the user index does not
    declare. *)
Theorem user_queries_against_user_mapping
    (teamId channelId term : string) (restricted : Go.slice string)
    (options : UserSearchOptions) :
  fitsMapping getUserIndexMapping (rootQuery teamId restricted term options) = true
  ∧ fitsMapping getUserIndexMapping (uchanQuery channelId term options) = true
  ∧ fitsMapping getUserIndexMapping
      (nuchanQuery teamId channelId restricted term options)
    = bool_decide (Go.len restricted = 0).
Proof.
  destruct user_mapping_fields as (Hwith & Hwithout & Hteams & Hchannels & Hnone).
  set (um := getUserIndexMapping) in *.
  repeat split.
  - destruct restricted as [[|c cs]|].
    + unfold rootQuery. cbn [Go.len length Go.elems].
      repeat case_bool_decide; try lia; try discriminate;
        cbn [andb AddMust NewBooleanQuery NewMatchAllQuery app fitsMapping forallb
             SetField NewTermQuery];
        rewrite ?fits_termPrefixQuery; fold um; by rewrite ?Hteams.
    + rewrite rootQuery_restricted. cbn [fitsMapping].
      rewrite forallb_app, fits_optional_prefix. cbn [forallb fitsMapping andb].
      fold um. by rewrite fits_terms.
    + unfold rootQuery. cbn [Go.len length Go.elems].
      repeat case_bool_decide; try lia; try discriminate;
        cbn [andb AddMust NewBooleanQuery NewMatchAllQuery app fitsMapping forallb
             SetField NewTermQuery];
        rewrite ?fits_termPrefixQuery; fold um; by rewrite ?Hteams.
  - unfold uchanQuery.
    case_bool_decide; cbn [app NewConjunctionQuery fitsMapping forallb SetField NewTermQuery
           NewPrefixQuery];
      rewrite ?fits_termPrefixQuery; fold um; by rewrite Hchannels.
  - destruct restricted as [[|c cs]|].
    + unfold nuchanQuery. cbn [Go.len length].
      repeat case_bool_decide; try lia; try discriminate;
        cbn [AddMust AddMustNot NewBooleanQuery app fitsMapping forallb
             SetField NewTermQuery];
        rewrite ?fits_termPrefixQuery; fold um; by rewrite Hteams, Hchannels.
    + rewrite nuchanQuery_restricted. cbn [Go.len length].
      rewrite (bool_decide_eq_false_2 (S (length cs) = 0)) by lia.
      cbn [fitsMapping]. rewrite forallb_app. cbn [forallb fitsMapping map].
      fold um. rewrite Hnone. cbn [andb].
      by rewrite !andb_false_r.
    + unfold nuchanQuery. cbn [Go.len length].
      repeat case_bool_decide; try lia; try discriminate;
        cbn [AddMust AddMustNot NewBooleanQuery app fitsMapping forallb
             SetField NewTermQuery];
        rewrite ?fits_termPrefixQuery; fold um; by rewrite Hteams, Hchannels.
Qed.

(** X21. The query [SearchChannels] builds fits the mapping the channel index
    is created with, for every team id and term: its exact term is on
    [TeamId] and its prefix on [NameSuggest], both keyword fields. *)
Theorem channel_query_fits_channel_mapping (teamId term : string) :
  fitsMapping getChannelIndexMapping (channelsQuery teamId term) = true
  ∧ ∀ f, f ∈ fields_of (channelsQuery teamId term) →
         declares getChannelIndexMapping f keywordMapping = true.
Proof.
  destruct channel_mapping_fields as (Hteam & Hname).
  set (cm := getChannelIndexMapping) in *.
  unfold channelsQuery.
  case_bool_decide;
    cbn [app NewConjunctionQuery fitsMapping forallb SetField NewTermQuery
           NewPrefixQuery fields_of flat_map]; fold cm.
  - split; [by rewrite Hteam, Hname|].
    intros f Hf. apply list_elem_of_In in Hf.
    destruct Hf as [<-|[<-|[]]]; assumption.
  - split; [by rewrite Hteam|].
    intros f Hf. apply list_elem_of_In in Hf.
    destruct Hf as [<-|[]]; assumption.
Qed.

End MappingFacts.

(** ** The search entry points *)

Section FacadeFacts.
Context `{SearchParamsDates} `{BleveEnv}.

(** What a search entry point does after building its query: one request
    to the index it holds, then the conversion of the answer. *)
Lemma search_then (A : Type) (index : BleveEngine → option Handle)
    (req : SearchRequest) (k : SearchResult + string → M A) (st : State) :
  (b <- getEngine;; r <- indexSearch (index b) req;; k r) st =
    match index (engine st) with
    | None => (Panic "nil pointer dereference", st)
    | Some h =>
        k (Index_Search h req (world st)).1
          {| engine := engine st;
             world := (Index_Search h req (world st)).2;
             trace := trace st ++ [EvSearch h req] |}
    end.
Proof.
  unfold bind at 1, getEngine at 1. unfold bind at 1.
  destruct (index (engine st)) as [h|]; [by rewrite indexSearch_open|done].
Qed.

(** X6. With an open post index and a non-empty parameter list,
    [SearchPosts] does not panic and leaves the engine as it was; it sends
    the built query to the post index once and nothing else leaves the
    engine.  If the index answers, the result is the hit identifiers in the
    index's order, an empty match map and no error; if the index fails, the
    result is a nil list, a nil map and an error with status 500 that
    carries the index's message. *)
Theorem SearchPosts_with_open_index
    (channels : list Channel) (p : SearchParams) (rest : list SearchParams)
    (page perPage : Z) (st : State) (index : Handle) :
  postIndex (engine st) = Some index →
  ∃ query postIds matches err st',
    postsQuery channels (p :: rest) = Some query
    ∧ SearchPosts channels (p :: rest) page perPage st
        = (Ok (postIds, matches, err), st')
    ∧ engine st' = engine st
    ∧ trace st' = trace st ++ [EvSearch index (NewSearchRequest query)]
    ∧ world st' = (Index_Search index (NewSearchRequest query) (world st)).2
    ∧ match (Index_Search index (NewSearchRequest query) (world st)).1 with
      | inl results =>
          postIds = Some (map ID (Hits results)) ∧ matches = Some ∅ ∧ err = None
      | inr message =>
          postIds = None ∧ matches = None
          ∧ err = Some {| Where := "Bleveengine.SearchPosts";
                          ErrId := "bleveengine.search_posts.error";
                          DetailedError := message;
                          StatusCode := 500 |}
      end.
Proof.
  intros Hidx.
  destruct (postsQuery channels (p :: rest)) as [query|] eqn:Hq;
    [|by rewrite postsQuery_cons in Hq].
  exists query.
  unfold SearchPosts. rewrite Hq, search_then, Hidx.
  destruct (Index_Search index (NewSearchRequest query) (world st))
    as [[results|message] w]; cbn [fst snd];
    do 4 eexists; (split; [reflexivity|]); (split; [reflexivity|]);
    cbn [engine world trace]; rewrite ?hitIds_map; done.
Qed.


Lemma presentAndEmpty_iff (restricted : Go.slice string) :
  presentAndEmpty restricted = true ↔ restricted = Some [].
Proof. destruct restricted as [[|c cs]|]; by split. Qed.

(** X8. [SearchChannels] with an open channel index does not panic and
    leaves the engine as it was.  It sends one query: the conjunction of the
    exact [TeamId] term, always there, and, when a term is given, the prefix
    of the lower-cased term on [NameSuggest].  The identifiers come back in
    the index's order; an index failure comes back as a nil list and an error
    with status 500 carrying the index's message. *)
Theorem SearchChannels_with_open_index
    (teamId term : string) (st : State) (index : Handle) :
  channelIndex (engine st) = Some index →
  let query :=
    ConjunctionQuery
      (TermQuery teamId "TeamId"
         :: if bool_decide (term ≠ "")
            then [PrefixQuery (strings_ToLower term) "NameSuggest"] else []) in
  ∃ channelIds err st',
    SearchChannels teamId term st = (Ok (channelIds, err), st')
    ∧ engine st' = engine st
    ∧ trace st' = trace st ++ [EvSearch index (NewSearchRequest query)]
    ∧ match (Index_Search index (NewSearchRequest query) (world st)).1 with
      | inl results => channelIds = Some (map ID (Hits results)) ∧ err = None
      | inr message =>
          channelIds = None
          ∧ err = Some {| Where := "Bleveengine.SearchChannels";
                          ErrId := "bleveengine.search_channels.error";
                          DetailedError := message;
                          StatusCode := 500 |}
      end.
Proof.
  intros Hidx query.
  assert (Hq : channelsQuery teamId term = query).
  { unfold channelsQuery, query. by case_bool_decide. }
  unfold SearchChannels. rewrite search_then, Hidx, Hq.
  destruct (Index_Search index (NewSearchRequest query) (world st))
    as [[results|message] w]; cbn [fst snd];
    do 3 eexists; (split; [reflexivity|]);
    cbn [engine world trace]; rewrite ?hitIds_map; done.
Qed.

(** X9. The two queries of [SearchUsersInChannel] split the users on the
    channel: the exact [ChannelsIds] term for the channel is the last
    conjunct of the first query and the only MUST-NOT clause of the second.
    Both start with the same prefix clause when a term is given, and the
    second always requires the [TeamsIds] term for the team id, empty or
    not. *)
Theorem in_and_out_of_channel_queries
    (teamId channelId term : string) (restricted : Go.slice string)
    (options : UserSearchOptions) :
  let inChannel := TermQuery channelId "ChannelsIds" in
  let prefix :=
    if bool_decide (term ≠ "") then [termPrefixQuery term options] else [] in
  uchanQuery channelId term options = ConjunctionQuery (prefix ++ [inChannel])
  ∧ ∃ restriction,
      nuchanQuery teamId channelId restricted term options
        = BooleanQuery (prefix ++ TermQuery teamId "TeamsIds" :: restriction)
            [] [inChannel]
      ∧ (Go.len restricted = 0 ↔ restriction = []).
Proof.
  cbv zeta. split.
  - unfold uchanQuery. by case_bool_decide.
  - destruct restricted as [[|c cs]|].
    + exists []. split; [|done]. unfold nuchanQuery. cbn [Go.len length].
      repeat case_bool_decide; try lia; done.
    + eexists. split; [apply nuchanQuery_restricted|]. done.
    + exists []. split; [|done]. unfold nuchanQuery. cbn [Go.len length].
      repeat case_bool_decide; try lia; done.
Qed.

(** X10. [SearchUsersInChannel] with an open user index, past the guard on a
    present and empty restriction list, does not panic and leaves the engine
    as it was.  It searches for the users in the channel first; if that
    fails it returns the error at once, with nil lists, and the second
    search is never sent.  Otherwise it searches for the users outside the
    channel in the world the first search left; if that fails, the hits of
    the first search are dropped and the lists are nil. *)
Theorem SearchUsersInChannel_with_open_index
    (teamId channelId term : string) (restricted : Go.slice string)
    (options : UserSearchOptions) (st : State) (index : Handle) :
  userIndex (engine st) = Some index →
  restricted ≠ Some [] →
  let inside := NewSearchRequest (uchanQuery channelId term options) in
  let outside :=
    NewSearchRequest (nuchanQuery teamId channelId restricted term options) in
  let first := Index_Search index inside (world st) in
  let second := Index_Search index outside first.2 in
  ∃ r st',
    SearchUsersInChannel teamId channelId restricted term options st = (Ok r, st')
    ∧ engine st' = engine st
    ∧ match first.1 with
      | inr message =>
          r = (None, None,
               Some {| Where := "Bleveengine.SearchUsersInChannel";
                       ErrId := "bleveengine.search_users_in_channel.uchan.error";
                       DetailedError := message; StatusCode := 500 |})
          ∧ trace st' = trace st ++ [EvSearch index inside]
          ∧ world st' = first.2
      | inl uchan =>
          trace st' = trace st ++ [EvSearch index inside; EvSearch index outside]
          ∧ world st' = second.2
          ∧ match second.1 with
            | inr message =>
                r = (None, None,
                     Some {| Where := "Bleveengine.SearchUsersInChannel";
                             ErrId := "bleveengine.search_users_in_channel.nuchan.error";
                             DetailedError := message; StatusCode := 500 |})
            | inl nuchan =>
                r = (Some (map ID (Hits uchan)), Some (map ID (Hits nuchan)), None)
            end
      end.
Proof.
  intros Hidx Hguard. cbv zeta.
  unfold SearchUsersInChannel.
  destruct (presentAndEmpty restricted) eqn:Hpe;
    [by apply presentAndEmpty_iff in Hpe|].
  rewrite search_then, Hidx.
  destruct (Index_Search index _ (world st)) as [[uchan|message] w]; cbn [fst snd].
  - rewrite search_then. cbn [engine world trace]. rewrite Hidx.
    destruct (Index_Search index _ w) as [[nuchan|message] w']; cbn [fst snd];
      do 2 eexists; (split; [reflexivity|]); cbn [engine world trace];
      rewrite <- ?app_assoc, ?hitIds_map; done.
  - do 2 eexists. split; [reflexivity|]. done.
Qed.

(** X22. [SearchUsersInTeam] with an open user index, past the guard on a
    present and empty restriction list, does not panic and leaves the engine
    as it was.  If the index answers, it returns the hit identifiers in the
    index's order and no error; if the index fails, it returns a nil list and
    an error with status 500 that carries the index's message. *)
Theorem SearchUsersInTeam_with_open_index
    (teamId term : string) (restricted : Go.slice string)
    (options : UserSearchOptions) (st : State) (index : Handle) :
  userIndex (engine st) = Some index →
  restricted ≠ Some [] →
  let search := NewSearchRequest (rootQuery teamId restricted term options) in
  ∃ usersIds err st',
    SearchUsersInTeam teamId restricted term options st = (Ok (usersIds, err), st')
    ∧ engine st' = engine st
    ∧ match (Index_Search index search (world st)).1 with
      | inl results => usersIds = Some (map ID (Hits results)) ∧ err = None
      | inr message =>
          usersIds = None
          ∧ err = Some {| Where := "Bleveengine.SearchUsersInTeam";
                          ErrId := "bleveengine.search_users_in_team.error";
                          DetailedError := message; StatusCode := 500 |}
      end.
Proof.
  intros Hidx Hguard. cbv zeta. unfold SearchUsersInTeam.
  destruct (presentAndEmpty restricted) eqn:Hpe;
    [by apply presentAndEmpty_iff in Hpe|].
  rewrite search_then, Hidx.
  destruct (Index_Search index _ (world st)) as [[results|message] w]; cbn [fst snd];
    do 3 eexists; (split; [reflexivity|]); cbn [engine]; rewrite ?hitIds_map; done.
Qed.

(** X11. No search entry point returns partial results.  Whenever one of
    the four returns, it returns either no error and non-nil lists (and, for
    posts, a non-nil match map), or an error and nil in every other
    position. *)
Theorem search_results_all_or_nothing :
  (∀ channels searchParams page perPage st st' postIds matches err,
     SearchPosts channels searchParams page perPage st
       = (Ok (postIds, matches, err), st') →
     err = None ∧ is_Some postIds ∧ is_Some matches
     ∨ is_Some err ∧ postIds = None ∧ matches = None)
  ∧ (∀ teamId channelId restricted term options st st' uchanIds nuchanIds err,
       SearchUsersInChannel teamId channelId restricted term options st
         = (Ok (uchanIds, nuchanIds, err), st') →
       err = None ∧ is_Some uchanIds ∧ is_Some nuchanIds
       ∨ is_Some err ∧ uchanIds = None ∧ nuchanIds = None)
  ∧ (∀ teamId restricted term options st st' usersIds err,
       SearchUsersInTeam teamId restricted term options st
         = (Ok (usersIds, err), st') →
       err = None ∧ is_Some usersIds ∨ is_Some err ∧ usersIds = None)
  ∧ (∀ teamId term st st' channelIds err,
       SearchChannels teamId term st = (Ok (channelIds, err), st') →
       err = None ∧ is_Some channelIds ∨ is_Some err ∧ channelIds = None).
Proof.
  repeat split.
  - intros channels searchParams page perPage st st' postIds matches err.
    unfold SearchPosts.
    destruct (postsQuery channels searchParams) as [query|]; [|done].
    rewrite search_then.
    destruct (postIndex (engine st)) as [index|]; [|done].
    destruct (Index_Search index _ (world st)) as [[results|message] w];
      cbn [fst]; intros [= <- <- <- _]; [left|right]; eauto.
  - intros teamId channelId restricted term options st st' uchanIds nuchanIds err.
    unfold SearchUsersInChannel.
    destruct (presentAndEmpty restricted).
    { intros [= <- <- <- _]. left. eauto. }
    rewrite search_then.
    destruct (userIndex (engine st)) as [index|] eqn:Hidx; [|done].
    destruct (Index_Search index _ (world st)) as [[uchan|message] w]; cbn [fst snd].
    + rewrite search_then. cbn [engine world]. rewrite Hidx.
      destruct (Index_Search index _ w) as [[nuchan|message] w']; cbn [fst];
        intros [= <- <- <- _]; [left|right]; eauto.
    + intros [= <- <- <- _]. right. eauto.
  - intros teamId restricted term options st st' usersIds err.
    unfold SearchUsersInTeam.
    destruct (presentAndEmpty restricted).
    { intros [= <- <- _]. left. eauto. }
    rewrite search_then.
    destruct (userIndex (engine st)) as [index|]; [|done].
    destruct (Index_Search index _ (world st)) as [[results|message] w];
      cbn [fst]; intros [= <- <- _]; [left|right]; eauto.
  - intros teamId term st st' channelIds err.
    unfold SearchChannels. rewrite search_then.
    destruct (channelIndex (engine st)) as [index|]; [|done].
    destruct (Index_Search index _ (world st)) as [[results|message] w];
      cbn [fst]; intros [= <- <- _]; [left|right]; eauto.
Qed.


End FacadeFacts.

(** ** Starting and stopping *)

Section LifecycleMore.
Context `{SearchParamsDates} `{BleveEnv}.

(** The runs of [createOrOpenIndex]: the index is opened if it can be, and
    created only after opening has failed. *)
Lemma createOrOpenIndex_cases (c : Config) (name : string)
    (mapping : IndexMappingImpl) (st : State) :
  let path := filepath_Join (IndexDir (BleveSettings c)) (String.append name ".bleve") in
  ∃ index err w evs,
    createOrOpenIndex c name mapping st =
      (Ok (index, err),
       {| engine := engine st; world := w; trace := trace st ++ evs |})
    ∧ (evs = [EvOpen path] ∨ evs = [EvOpen path; EvNew path mapping])
    ∧ (err = None ∧ is_Some index ∨ is_Some err ∧ index = None).
Proof.
  cbv zeta. unfold createOrOpenIndex. unfold_monad. simpl.
  destruct (bleve_Open _ (world st)) as [[index|err] w]; simpl.
  - exists (Some index), None, w. eexists. split; [reflexivity|]. eauto.
  - destruct (bleve_New _ mapping w) as [[index|err'] w']; simpl;
      rewrite <- app_assoc; do 4 eexists; (split; [reflexivity|]); eauto.
Qed.

(** X13. [Start] on an engine whose configuration is not active (indexing
    disabled, or no index directory) returns nil and does nothing at all:
    no warning is logged, no path is opened, the handles stay as they
    were. *)
Theorem Start_inactive_noop (st : State) :
  isActive (engine st) = false → Start st = (Ok None, st).
Proof.
  unfold isActive, Start. unfold bind at 1, getEngine at 1.
  destruct (EnableIndexing _); [|done]. cbn [andb negb orb].
  intros Hdir. apply bool_decide_eq_false in Hdir.
  rewrite bool_decide_eq_true_2; [done|].
  destruct (decide (IndexDir (BleveSettings (cfg (engine st))) = "")); [done|].
  by destruct Hdir.
Qed.

(** Runs the next [createOrOpenIndex] of the goal, with the cases of its
    outcome, and the assignment that follows it. *)
Ltac step_index i e w evs Hevs Hres :=
  match goal with
  | |- context [bind (createOrOpenIndex ?c ?n ?m) ?k ?s] =>
      let Hrun := fresh "Hrun" in
      destruct (createOrOpenIndex_cases c n m s) as (i & e & w & evs & Hrun & Hevs & Hres);
      rewrite (bind_Ok _ k _ _ _ Hrun); clear Hrun;
      unfold bind at 1, setPostIndex, setUserIndex, setChannelIndex,
        bind at 1, getEngine at 1, putEngine at 1; cbn [engine world trace]
  end.

(** The outcomes of [Start] on an active configuration. *)
Lemma Start_active_cases (st : State) :
  isActive (engine st) = true →
  let b := engine st in
  ∃ r st' evs,
    Start st = (Ok r, st')
    ∧ cfg (engine st') = cfg b
    ∧ jobServer (engine st') = jobServer b
    ∧ indexSync (engine st') = indexSync b
    ∧ trace st' = trace st ++ EvWarn "Starting Bleve" :: evs
    ∧ Forall (λ path, path ∈ [indexPath b "posts"; indexPath b "users";
                               indexPath b "channels"]) (touched evs)
    ∧ closed evs = []
    ∧ match r with
      | None =>
          is_Some (postIndex (engine st')) ∧ is_Some (userIndex (engine st'))
          ∧ is_Some (channelIndex (engine st'))
      | Some e =>
          Where e = "Bleveengine.Start" ∧ StatusCode e = 500%Z
          ∧ (ErrId e = "bleveengine.create_post_index.error"
             ∧ postIndex (engine st') = None
             ∧ userIndex (engine st') = userIndex b
             ∧ channelIndex (engine st') = channelIndex b
             ∨ ErrId e = "bleveengine.create_user_index.error"
               ∧ is_Some (postIndex (engine st'))
               ∧ userIndex (engine st') = None
               ∧ channelIndex (engine st') = channelIndex b
             ∨ ErrId e = "bleveengine.create_channel_index.error"
               ∧ is_Some (postIndex (engine st'))
               ∧ is_Some (userIndex (engine st'))
               ∧ channelIndex (engine st') = None)
      end.
Proof.
  intros Hactive. cbv zeta. unfold isActive in Hactive.
  apply andb_true_iff in Hactive as [Hen Hdir].
  apply bool_decide_eq_true in Hdir.
  unfold Start. unfold bind at 1, getEngine at 1.
  rewrite Hen, (bool_decide_eq_false_2 _ Hdir). cbn [negb orb].
  unfold bind at 1, mlog_Warn, emit at 1.
  assert (Hstep : ∀ name mapping evs,
            evs = [EvOpen (indexPath (engine st) name)]
            ∨ evs = [EvOpen (indexPath (engine st) name);
                     EvNew (indexPath (engine st) name) mapping] →
            indexPath (engine st) name
              ∈ [indexPath (engine st) "posts"; indexPath (engine st) "users";
                 indexPath (engine st) "channels"] →
            Forall (λ path, path ∈ [indexPath (engine st) "posts";
                                     indexPath (engine st) "users";
                                     indexPath (engine st) "channels"]) (touched evs)
            ∧ closed evs = []).
  { intros name mapping evs [->| ->] Hname; (split; [|done]); cbn;
      repeat (apply Forall_cons_2; [exact Hname|]); apply Forall_nil_2. }
  step_index i1 e1 w1 evs1 Hevs1 Hres1.
  destruct (Hstep "posts" _ _ Hevs1) as [Ht1 Hc1]; [apply list_elem_of_here|].
  destruct Hres1 as [[-> Hi1]|[[e1' ->] ->]].
  2: { do 3 eexists. split; [reflexivity|]. cbn.
       rewrite <- app_assoc. do 4 (split; [reflexivity|]).
       split; [done|]. split; [done|]. split; [done|]. split; [done|]. by left. }
  step_index i2 e2 w2 evs2 Hevs2 Hres2.
  destruct (Hstep "users" _ _ Hevs2) as [Ht2 Hc2];
    [apply list_elem_of_further, list_elem_of_here|].
  assert (Hsum : ∀ a b : list Event,
            touched (a ++ b) = touched a ++ touched b
            ∧ closed (a ++ b) = closed a ++ closed b).
  { intros a b. unfold touched, closed. by rewrite !flat_map_app. }
  destruct Hres2 as [[-> Hi2]|[[e2' ->] ->]].
  2: { do 3 eexists. split; [reflexivity|]. cbn.
       rewrite <- !app_assoc. do 4 (split; [reflexivity|]).
       destruct (Hsum evs1 evs2) as [-> ->]. rewrite Hc1, Hc2.
       split; [by apply Forall_app|]. split; [done|].
       split; [done|]. split; [done|]. right; left. done. }
  step_index i3 e3 w3 evs3 Hevs3 Hres3.
  destruct (Hstep "channels" _ _ Hevs3) as [Ht3 Hc3];
    [do 2 apply list_elem_of_further; apply list_elem_of_here|].
  assert (Htouched : Forall (λ path, path ∈ [indexPath (engine st) "posts";
                                indexPath (engine st) "users";
                                indexPath (engine st) "channels"])
                       (touched (evs1 ++ evs2 ++ evs3))
                     ∧ closed (evs1 ++ evs2 ++ evs3) = []).
  { destruct (Hsum evs1 (evs2 ++ evs3)) as [-> ->].
    destruct (Hsum evs2 evs3) as [-> ->]. rewrite Hc1, Hc2, Hc3.
    split; [|done]. rewrite !Forall_app. done. }
  destruct Htouched as [Htouched Hclosed].
  destruct Hres3 as [[-> Hi3]|[[e3' ->] ->]].
  - do 3 eexists. split; [reflexivity|]. cbn.
    rewrite <- !app_assoc. do 4 (split; [reflexivity|]).
    split; [exact Htouched|]. split; [exact Hclosed|]. done.
  - do 3 eexists. split; [reflexivity|]. cbn.
    rewrite <- !app_assoc. do 4 (split; [reflexivity|]).
    split; [exact Htouched|]. split; [exact Hclosed|].
    split; [done|]. split; [done|]. right; right. done.
Qed.

(** X14. [Start] on an active configuration never panics and keeps the
    configuration.  It logs one warning and then only opens or creates the
    three index paths under the configured directory.  It returns nil exactly
    when all three handles are non-nil afterwards.  When it returns an error,
    the error names the first index that could neither be opened nor
    created: that handle is now nil, the handles before it are open, and the
    handles after it are what they were before the call. *)
Theorem Start_opens_all_or_reports (st : State) :
  isActive (engine st) = true →
  let b := engine st in
  ∃ r st' evs,
    Start st = (Ok r, st')
    ∧ cfg (engine st') = cfg b
    ∧ trace st' = trace st ++ EvWarn "Starting Bleve" :: evs
    ∧ Forall (λ path, path ∈ [indexPath b "posts"; indexPath b "users";
                               indexPath b "channels"]) (touched evs)
    ∧ (r = None ↔
       is_Some (postIndex (engine st')) ∧ is_Some (userIndex (engine st'))
       ∧ is_Some (channelIndex (engine st')))
    ∧ ∀ e, r = Some e →
        StatusCode e = 500%Z
        ∧ (ErrId e = "bleveengine.create_post_index.error"
           ∧ postIndex (engine st') = None
           ∧ userIndex (engine st') = userIndex b
           ∧ channelIndex (engine st') = channelIndex b
           ∨ ErrId e = "bleveengine.create_user_index.error"
             ∧ is_Some (postIndex (engine st'))
             ∧ userIndex (engine st') = None
             ∧ channelIndex (engine st') = channelIndex b
           ∨ ErrId e = "bleveengine.create_channel_index.error"
             ∧ is_Some (postIndex (engine st'))
             ∧ is_Some (userIndex (engine st'))
             ∧ channelIndex (engine st') = None).
Proof.
  intros Hactive. cbv zeta.
  destruct (Start_active_cases st Hactive)
    as (r & st' & evs & Hrun & Hcfg & _ & _ & Htrace & Htouched & _ & Hr).
  exists r, st', evs. do 4 (split; [assumption|]).
  destruct r as [e|].
  - destruct Hr as (_ & Hstatus & Hcases). split.
    + split; [done|]. intros (Hp & Hu & Hc).
      destruct Hcases as [(_ & Hnil & _)|[(_ & _ & Hnil & _)|(_ & _ & _ & Hnil)]];
        rewrite Hnil in *; by apply is_Some_None in Hp || by apply is_Some_None in Hu
                                 || by apply is_Some_None in Hc.
    + by intros e' [= <-].
  - split; [done|]. by intros e.
Qed.

(** The outcomes of [Stop] on an active engine that holds three handles:
    the closes run in the order posts, users, channels and stop at the first
    failure. *)
Lemma Stop_active_cases (st : State) (posts users channels : Handle) :
  isActive (engine st) = true →
  postIndex (engine st) = Some posts →
  userIndex (engine st) = Some users →
  channelIndex (engine st) = Some channels →
  let c1 := Index_Close posts (world st) in
  let c2 := Index_Close users c1.2 in
  let c3 := Index_Close channels c2.2 in
  let failed id message :=
    Some {| Where := "Bleveengine.Stop"; ErrId := id;
            DetailedError := message; StatusCode := 500 |} in
  ∃ r st',
    Stop st = (Ok r, st')
    ∧ engine st' = engine st
    ∧ match c1.1, c2.1, c3.1 with
      | Some message, _, _ =>
          r = failed "bleveengine.stop_post_index.error" message
          ∧ trace st' = trace st ++ [EvWarn "Stopping Bleve"; EvClose posts]
          ∧ world st' = c1.2
      | None, Some message, _ =>
          r = failed "bleveengine.stop_user_index.error" message
          ∧ trace st' =
              trace st ++ [EvWarn "Stopping Bleve"; EvClose posts; EvClose users]
          ∧ world st' = c2.2
      | None, None, Some message =>
          r = failed "bleveengine.stop_channel_index.error" message
          ∧ trace st' =
              trace st ++ [EvWarn "Stopping Bleve"; EvClose posts; EvClose users;
                           EvClose channels]
          ∧ world st' = c3.2
      | None, None, None =>
          r = None
          ∧ trace st' =
              trace st ++ [EvWarn "Stopping Bleve"; EvClose posts; EvClose users;
                           EvClose channels]
          ∧ world st' = c3.2
      end.
Proof.
  intros Hactive Hp Hu Hc. cbv zeta.
  unfold Stop. unfold_monad. cbn. rewrite Hactive. cbn. rewrite Hp, Hu, Hc. cbn.
  destruct (Index_Close posts (world st)) as [[message|] w1]; cbn.
  { do 2 eexists. split; [reflexivity|]. cbn. by rewrite <- app_assoc. }
  destruct (Index_Close users w1) as [[message|] w2]; cbn.
  { do 2 eexists. split; [reflexivity|]. cbn. by rewrite <- !app_assoc. }
  destruct (Index_Close channels w2) as [[message|] w3]; cbn;
    do 2 eexists; (split; [reflexivity|]); cbn; by rewrite <- !app_assoc.
Qed.

(** X15. [Stop] never changes the engine, whatever it returns and even when
    it panics: the three handles stay in place after their indexes have been
    closed, and the configuration stays active. *)
Theorem Stop_keeps_engine (st : State) :
  engine (Stop st).2 = engine st.
Proof.
  unfold Stop. unfold_monad. cbn.
  destruct (isActive (engine st)); [|done]. cbn.
  destruct (postIndex (engine st)) as [posts|]; [|done]. cbn.
  destruct (Index_Close posts (world st)) as [[message|] w1]; [done|]. cbn.
  destruct (userIndex (engine st)) as [users|]; [|done]. cbn.
  destruct (Index_Close users w1) as [[message|] w2]; [done|]. cbn.
  destruct (channelIndex (engine st)) as [channels|]; [|done]. cbn.
  by destruct (Index_Close channels w2) as [[message|] w3].
Qed.

(** X16. [Stop] on an active engine that holds three handles never panics.
    It closes the post index, then the user index, then the channel index,
    each in the world the previous close left, and stops at the first
    failure: the indexes after the failing one are not closed, and the error
    names the index that failed.  It returns nil only after three successful
    closes. *)
Theorem Stop_closes_in_order (st : State) (posts users channels : Handle) :
  isActive (engine st) = true →
  postIndex (engine st) = Some posts →
  userIndex (engine st) = Some users →
  channelIndex (engine st) = Some channels →
  let c1 := Index_Close posts (world st) in
  let c2 := Index_Close users c1.2 in
  let c3 := Index_Close channels c2.2 in
  ∃ r st',
    Stop st = (Ok r, st')
    ∧ closed (drop (length (trace st)) (trace st')) =
        match c1.1, c2.1 with
        | Some _, _ => [posts]
        | None, Some _ => [posts; users]
        | None, None => [posts; users; channels]
        end
    ∧ (r = None ↔ c1.1 = None ∧ c2.1 = None ∧ c3.1 = None)
    ∧ ∀ e, r = Some e →
        (ErrId e = "bleveengine.stop_post_index.error" ∧ c1.1 = Some (DetailedError e))
        ∨ (ErrId e = "bleveengine.stop_user_index.error"
           ∧ c1.1 = None ∧ c2.1 = Some (DetailedError e))
        ∨ (ErrId e = "bleveengine.stop_channel_index.error"
           ∧ c1.1 = None ∧ c2.1 = None ∧ c3.1 = Some (DetailedError e)).
Proof.
  intros Hactive Hp Hu Hc. cbv zeta.
  destruct (Stop_active_cases st posts users channels Hactive Hp Hu Hc)
    as (r & st' & Hrun & _ & Hcases).
  cbv zeta in Hcases. exists r, st'. split; [exact Hrun|].
  destruct (Index_Close posts (world st)).1 as [m1|];
    [|destruct (Index_Close users _).1 as [m2|];
      [|destruct (Index_Close channels _).1 as [m3|]]];
    cbn in Hcases; destruct Hcases as (-> & -> & _);
    rewrite drop_app_length; cbn;
    (split; [done|]); (split; [split; [done|by intros (? & ? & ?)]|]);
    intros e [= <-]; cbn; eauto 10.
Qed.

(** X17. [Stop] on an engine whose configuration is active and whose post
    index handle is nil, as after [NewBleveEngine] without [Start], panics:
    it logs its warning and dereferences the nil handle, and nothing is
    closed. *)
Theorem Stop_panics_on_nil_handle (st : State) :
  isActive (engine st) = true →
  postIndex (engine st) = None →
  Stop st =
    (Panic "nil pointer dereference",
     {| engine := engine st; world := world st;
        trace := trace st ++ [EvWarn "Stopping Bleve"] |}).
Proof.
  intros Hactive Hp. unfold Stop. unfold_monad. cbn.
  rewrite Hactive. cbn. by rewrite Hp.
Qed.

(** X18. After a [Start] that returned nil on an active configuration,
    [Stop] cannot panic: the three handles [Start] stored are there, [Stop]
    returns, and the first thing it closes is the post index [Start]
    opened. *)
Theorem Stop_after_Start (st started : State) :
  isActive (engine st) = true →
  Start st = (Ok None, started) →
  ∃ posts users channels r stopped evs,
    postIndex (engine started) = Some posts
    ∧ userIndex (engine started) = Some users
    ∧ channelIndex (engine started) = Some channels
    ∧ Stop started = (Ok r, stopped)
    ∧ engine stopped = engine started
    ∧ trace stopped =
        trace started ++ EvWarn "Stopping Bleve" :: EvClose posts :: evs.
Proof.
  intros Hactive Hstart.
  destruct (Start_active_cases st Hactive)
    as (r & st' & evs & Hrun & Hcfg & _ & _ & _ & _ & _ & Hr).
  rewrite Hstart in Hrun. injection Hrun as <- <-.
  destruct Hr as ([posts Hp] & [users Hu] & [channels Hc]).
  assert (Hactive' : isActive (engine started) = true)
    by (unfold isActive in *; by rewrite Hcfg).
  destruct (Stop_active_cases started posts users channels Hactive' Hp Hu Hc)
    as (r & stopped & Hstop & Hengine & Hcases).
  cbv zeta in Hcases.
  exists posts, users, channels, r, stopped.
  destruct (Index_Close posts (world started)).1 as [m1|];
    [|destruct (Index_Close users _).1 as [m2|];
      [|destruct (Index_Close channels _).1 as [m3|]]];
    destruct Hcases as (_ & -> & _); eexists; repeat split; eauto.
Qed.

(** X19. [UpdateConfig] never closes an index and never panics, whatever
    the old and the new configuration are: also when indexing is switched
    off or the directory changes, the indexes the engine holds stay open. *)
Theorem UpdateConfig_never_closes (new : Config) (st : State) :
  ∃ st' evs,
    UpdateConfig new st = (Ok (), st')
    ∧ trace st' = trace st ++ evs
    ∧ closed evs = [].
Proof.
  unfold UpdateConfig.
  unfold bind at 1, IsActive, bind at 1, getEngine at 1, ret at 1.
  destruct (negb (isActive (engine st)) && EnableIndexing (BleveSettings new)
            && bool_decide (IndexDir (BleveSettings new) ≠ "")) eqn:Hrestart.
  - apply andb_true_iff in Hrestart as [Hrestart Hdir].
    apply andb_true_iff in Hrestart as [Hinactive Hen].
    apply negb_true_iff in Hinactive.
    rewrite (bind_Ok _ _ _ _ _ (Stop_inactive st Hinactive)).
    unfold bind at 1, setCfg, bind at 1, getEngine at 1, putEngine at 1.
    cbn [engine world trace].
    match goal with
    | |- context [bind Start _ ?s] =>
        destruct (Start_active_cases s) as
          (r & st' & evs & Hrun & _ & _ & _ & Htrace & _ & Hclosed & _)
    end.
    { unfold isActive. cbn. by rewrite Hen, Hdir. }
    rewrite (bind_Ok _ _ _ _ _ Hrun).
    exists st'. eexists. split; [reflexivity|].
    rewrite Htrace. cbn [trace]. rewrite <- app_assoc. split; [reflexivity|].
    exact Hclosed.
  - exists {| engine := withCfg new (engine st); world := world st; trace := trace st |}, [].
    split; [reflexivity|]. by rewrite app_nil_r.
Qed.

End LifecycleMore.

(** ** Timestamps as floats *)

Section Float64Facts.
Local Open Scope Z_scope.

Lemma digits2_size (p : positive) : digits2_pos p = Pos.size p.
Proof. induction p; simpl; congruence. Qed.

Lemma digits2_shifted (m k : positive) :
  digits2_pos (Pos.iter xO m k) = (digits2_pos m + k)%positive.
Proof.
  induction k as [|k IH] using Pos.peano_ind.
  - simpl. lia.
  - rewrite Pos.iter_succ. simpl. rewrite IH. lia.
Qed.

Lemma digits2_below_2_53 (m : positive) :
  Zpos m < 2 ^ 53 → Zpos (digits2_pos m) ≤ 53.
Proof.
  intros Hm. rewrite digits2_size.
  destruct (Z_le_gt_dec (Zpos (Pos.size m)) 53) as [|Hgt]; [assumption|].
  exfalso. pose proof (Pos.size_le m) as Hle.
  assert (2 ^ 54 ≤ 2 ^ Zpos (Pos.size m)) by (apply Z.pow_le_mono_r; lia).
  assert (Zpos (2 ^ Pos.size m) = 2 ^ Zpos (Pos.size m))
    by (rewrite Pos2Z.inj_pow; reflexivity).
  assert (Zpos (2 ^ Pos.size m) ≤ Zpos m~0) by (apply Pos2Z.pos_le_pos; exact Hle).
  change (2 ^ 54) with (2 * 2 ^ 53) in *. lia.
Qed.

(** A mantissa that already sits at its canonical exponent is not rounded. *)
Lemma round_aux_canonical (sx : bool) (mz : positive) (ez : Z) :
  fexp 53 1024 (Zpos (digits2_pos mz) + ez) = ez → ez ≤ 971 →
  binary_round_aux 53 1024 sx (Zpos mz) ez loc_Exact = S754_finite sx mz ez.
Proof.
  intros Hcanon Hle.
  unfold binary_round_aux, shr_fexp. cbn [Zdigits2 shr_record_of_loc].
  rewrite Hcanon, Z.sub_diag.
  cbn [shr shr_m loc_of_shr_record round_nearest_even shr_record_of_loc Zdigits2].
  rewrite Hcanon, Z.sub_diag. cbn [shr shr_m].
  change (1024 - 53) with 971.
  destruct (Z.leb_spec ez 971); [reflexivity|lia].
Qed.

Lemma binary_round_below_2_53 (sx : bool) (m : positive) :
  Zpos m < 2 ^ 53 →
  ∃ m' e, binary_round 53 1024 sx m 0 = S754_finite sx m' e
          ∧ e ≤ 0 ∧ Zpos m' = Zpos m * 2 ^ (- e).
Proof.
  intros Hm. pose proof (digits2_below_2_53 m Hm) as Hd.
  unfold binary_round, shl_align.
  set (d := digits2_pos m) in *.
  assert (Hfexp : fexp 53 1024 (Zpos d + 0) = Zpos d - 53).
  { unfold fexp, emin. lia. }
  rewrite Hfexp.
  destruct (Zpos d - 53 - 0) as [|q|q] eqn:Hq; [|lia|].
  - exists m, 0. rewrite round_aux_canonical.
    + split; [reflexivity|]. split; lia.
    + fold d. rewrite Hfexp. lia.
    + lia.
  - exists (Pos.iter xO m q), (Zpos d - 53). rewrite round_aux_canonical.
    + split; [reflexivity|]. split; [lia|].
      replace (- (Zpos d - 53)) with (Zpos q) by lia.
      change (Pos.iter xO m q) with (shift_pos q m).
      rewrite shift_pos_correct, Zpower_pos_nat, Zpower_nat_Z, positive_nat_Z. lia.
    + rewrite digits2_shifted. fold d. unfold fexp, emin. lia.
    + lia.
Qed.

Lemma float64_finite (i : Z) :
  Z.abs i < 2 ^ 53 → i ≠ 0 →
  ∃ m e, Go.float64 i = S754_finite (i <? 0) m e
         ∧ e ≤ 0 ∧ Zpos m = Z.abs i * 2 ^ (- e).
Proof.
  intros Hi Hnz. unfold Go.float64, binary_normalize.
  destruct i as [|p|p]; [congruence| |].
  - apply (binary_round_below_2_53 false p). exact Hi.
  - apply (binary_round_below_2_53 true p). exact Hi.
Qed.

(** X20. The conversion of the date bounds to [float64] loses nothing on
    millisecond timestamps: an integer of magnitude below 2^53 that is not
    zero becomes the finite float with the integer's sign whose mantissa
    times two to its exponent is the integer's magnitude, and two such
    integers with the same float are the same integer. *)
Theorem float64_exact_below_2_53 (i j : Z) :
  Z.abs i < 2 ^ 53 → Z.abs j < 2 ^ 53 →
  (i ≠ 0 →
   ∃ m e, Go.float64 i = S754_finite (i <? 0) m e
          ∧ e ≤ 0 ∧ Zpos m = Z.abs i * 2 ^ (- e))
  ∧ (Go.float64 i = Go.float64 j → i = j).
Proof.
  intros Hi Hj. split; [by apply float64_finite|].
  intros Heq.
  destruct (Z.eq_dec i 0) as [->|Hi0]; destruct (Z.eq_dec j 0) as [->|Hj0].
  - reflexivity.
  - destruct (float64_finite j Hj Hj0) as (m & e & Hf & _).
    rewrite Hf in Heq. discriminate.
  - destruct (float64_finite i Hi Hi0) as (m & e & Hf & _).
    rewrite Hf in Heq. discriminate.
  - destruct (float64_finite i Hi Hi0) as (m & e & Hf & He & Hm).
    destruct (float64_finite j Hj Hj0) as (m' & e' & Hf' & He' & Hm').
    rewrite Hf, Hf' in Heq. injection Heq as Hs Hmm Hee. subst m' e'.
    assert (0 < 2 ^ (- e)) by (apply Z.pow_pos_nonneg; lia).
    assert (Z.abs i = Z.abs j) by nia.
    destruct (Z.ltb_spec i 0), (Z.ltb_spec j 0); try discriminate; lia.
Qed.

End Float64Facts.

(** ** The claims on the concrete world *)

#[local] Existing Instance Sim.dates.
#[local] Existing Instance Sim.env.

(** C1 on two lists whose second elements share their terms and differ in
    every filter field. *)
Lemma global_filters_only_from_first_witness :
  Forall2 sameTerms [Sim.laterA] [Sim.laterB]
  ∧ filters (postClauses [Sim.first; Sim.laterA])
      = filters (postClauses [Sim.first; Sim.laterB])
  ∧ notFilters (postClauses [Sim.first; Sim.laterA])
      = notFilters (postClauses [Sim.first; Sim.laterB])
  ∧ postsQuery Sim.visible [Sim.first; Sim.laterA]
      = postsQuery Sim.visible [Sim.first; Sim.laterB].
Proof.
  assert (Hsame : Forall2 sameTerms [Sim.laterA] [Sim.laterB])
    by (repeat constructor).
  split; [exact Hsame|].
  pose proof (global_filters_only_from_first
                Sim.visible Sim.first [Sim.laterA] [Sim.laterB] Hsame)
    as (Hf & Hn & Hq & _).
  exact (conj Hf (conj Hn Hq)).
Defined.

(** C2 on a first element that sets [OnDate] and all five other date
    fields: the one range left is the fifth of January 2024. *)
Lemma onDate_is_the_only_date_clause_witness :
  OnDate Sim.first ≠ ""
  ∧ ∃ q fs,
      postsQuery Sim.visible [Sim.first; Sim.laterA] = Some q
      ∧ range_clauses q =
          [NumericRangeQuery (Some (Go.float64 1704412800000))
                             (Some (Go.float64 1704499199999)) "CreateAt"]
      ∧ ConjunctionQuery fs ∈ mustClauses q
      ∧ NumericRangeQuery (Some (Go.float64 1704412800000))
                          (Some (Go.float64 1704499199999)) "CreateAt" ∈ fs
      ∧ flat_map range_clauses (mustNotClauses q) = [].
Proof.
  assert (Hon : OnDate Sim.first ≠ "") by discriminate.
  split; [exact Hon|].
  exact (onDate_is_the_only_date_clause Sim.visible Sim.first [Sim.laterA] Hon).
Defined.

(** C9 on a started engine whose post index answers with three hits. *)
Lemma SearchPosts_matches_empty_witness :
  SearchPosts Sim.visible [Sim.params "deploy"] 0 60 Sim.running
    = (Ok (Some ["p1"; "p2"; "p3"], Some ∅, None),
       {| engine := Sim.started; world := world Sim.running;
          trace := [EvSearch "data/posts.bleve"
                      (NewSearchRequest
                         (BooleanQuery
                            [DisjunctionQuery [TermQuery "c1" "ChannelId";
                                               TermQuery "c2" "ChannelId"];
                             ConjunctionQuery [MatchQuery "deploy" "Message"]]
                            [] []))] |})
  ∧ ∃ index query results,
      postIndex Sim.started = Some index
      ∧ postsQuery Sim.visible [Sim.params "deploy"] = Some query
      ∧ (Index_Search index (NewSearchRequest query) (world Sim.running)).1
          = inl results
      ∧ Some ["p1"; "p2"; "p3"] = Some (map ID (Hits results)).
Proof.
  assert (Hrun : SearchPosts Sim.visible [Sim.params "deploy"] 0 60 Sim.running
    = (Ok (Some ["p1"; "p2"; "p3"], Some ∅, None),
       {| engine := Sim.started; world := world Sim.running;
          trace := [EvSearch "data/posts.bleve"
                      (NewSearchRequest
                         (BooleanQuery
                            [DisjunctionQuery [TermQuery "c1" "ChannelId";
                                               TermQuery "c2" "ChannelId"];
                             ConjunctionQuery [MatchQuery "deploy" "Message"]]
                            [] []))] |}))
    by reflexivity.
  split; [exact Hrun|].
  exact (proj2 (SearchPosts_matches_empty _ _ _ _ _ _ _ _ Hrun)).
Defined.

(** C8 on an engine that was never started and is given an active
    configuration, and on a started engine given an inactive one. *)
Lemma UpdateConfig_restarts_or_swaps_witness :
  UpdateConfig (Sim.settings true "data") Sim.fresh
    = (Ok (),
       {| engine := {| postIndex := Some "data/posts.bleve";
                       userIndex := Some "data/users.bleve";
                       channelIndex := Some "data/channels.bleve";
                       cfg := Sim.settings true "data";
                       jobServer := None; indexSync := false |};
          world := ["data/posts.bleve"; "data/users.bleve"; "data/channels.bleve"];
          trace := [EvWarn "Stopping Bleve"; EvWarn "Starting Bleve";
                    EvOpen "data/posts.bleve";
                    EvNew "data/posts.bleve" getPostIndexMapping;
                    EvOpen "data/users.bleve";
                    EvNew "data/users.bleve" getUserIndexMapping;
                    EvOpen "data/channels.bleve";
                    EvNew "data/channels.bleve" getChannelIndexMapping] |})
  ∧ (∃ stopped r st' evs,
       Stop Sim.fresh = (Ok None, stopped)
       ∧ engine stopped = engine Sim.fresh
       ∧ world stopped = world Sim.fresh
       ∧ Start {| engine := withCfg (Sim.settings true "data") (engine stopped);
                  world := world stopped; trace := trace stopped |}
           = (Ok r, st')
       ∧ UpdateConfig (Sim.settings true "data") Sim.fresh = (Ok (), st')
       ∧ cfg (engine st') = Sim.settings true "data"
       ∧ trace st' =
           trace Sim.fresh
           ++ [EvWarn "Stopping Bleve"; EvWarn "Starting Bleve";
               EvOpen "data/posts.bleve"]
           ++ evs)
  ∧ (∃ st',
       UpdateConfig (Sim.settings false "elsewhere") Sim.running = (Ok (), st')
       ∧ cfg (engine st') = Sim.settings false "elsewhere"
       ∧ postIndex (engine st') = Some "data/posts.bleve"
       ∧ userIndex (engine st') = Some "data/users.bleve"
       ∧ channelIndex (engine st') = Some "data/channels.bleve"
       ∧ jobServer (engine st') = None
       ∧ indexSync (engine st') = false
       ∧ world st' = world Sim.running
       ∧ trace st' = []).
Proof.
  split; [reflexivity|]. split.
  - apply (proj1 (UpdateConfig_restarts_or_swaps (Sim.settings true "data") Sim.fresh));
      [reflexivity|reflexivity|discriminate].
  - apply (proj2 (UpdateConfig_restarts_or_swaps
                    (Sim.settings false "elsewhere") Sim.running)).
    intros (Hinactive & _). discriminate Hinactive.
Defined.

(** C7, amended, on a nil restriction list with a team id and a term. *)
Lemma SearchUsersInTeam_team_filter_witness :
  (None : Go.slice string) ≠ Some []
  ∧ ∃ rootQ,
      trace (SearchUsersInTeam "team1" None "Ann" Sim.options Sim.running).2 =
        [EvSearch "data/users.bleve" (NewSearchRequest rootQ)]
      ∧ (∃ must, rootQ = BooleanQuery must [] []
                 ∧ TermQuery "team1" "TeamsIds" ∈ must).
Proof.
  assert (Hpresent : (None : Go.slice string) ≠ Some []) by discriminate.
  split; [exact Hpresent|].
  destruct (SearchUsersInTeam_team_filter "team1" None "Ann" Sim.options Hpresent)
    as (rootQ & Htrace & Hteam & _).
  exists rootQ. split.
  - apply (Htrace Sim.running "data/users.bleve"). reflexivity.
  - apply Hteam; [reflexivity|discriminate].
Defined.

(** C7 as stated fails for a restriction list that is present and empty:
    the call returns before any query is built, so no [TeamsIds] filter is
    ever a MUST clause, although a team id is given.  The same call with a
    nil list does send that filter. *)
Lemma empty_restriction_sends_no_team_filter :
  SearchUsersInTeam "team1" (Some []) "" Sim.options Sim.running
    = (Ok (Some [], None), Sim.running)
  ∧ searched (trace (SearchUsersInTeam "team1" (Some []) "" Sim.options
                       Sim.running).2) = []
  ∧ existsb (hasMustTerm "TeamsIds" "team1")
      (searched (trace (SearchUsersInTeam "team1" (Some []) "" Sim.options
                          Sim.running).2)) = false
  ∧ existsb (hasMustTerm "TeamsIds" "team1")
      (searched (trace (SearchUsersInTeam "team1" None "" Sim.options
                          Sim.running).2)) = true.
Proof. repeat split; reflexivity. Qed.

(** C5 on the code: with the restriction list [["chan2"]],
    [SearchUsersInChannel] restricts by a term query that names no field,
    where [SearchUsersInTeam] names [ChannelsIds]. *)
Lemma SearchUsersInChannel_restriction_names_no_field :
  searched (trace (SearchUsersInChannel "team1" "chan1" (Some ["chan2"]) ""
                     Sim.options Sim.running).2)
    = [ConjunctionQuery [TermQuery "chan1" "ChannelsIds"];
       BooleanQuery
         [TermQuery "team1" "TeamsIds"; DisjunctionQuery [TermQuery "chan2" ""]]
         []
         [TermQuery "chan1" "ChannelsIds"]]
  ∧ searched (trace (SearchUsersInTeam "team1" (Some ["chan2"]) ""
                       Sim.options Sim.running).2)
    = [BooleanQuery [DisjunctionQuery [TermQuery "chan2" "ChannelsIds"]] [] []].
Proof. split; reflexivity. Qed.

(** ** The further properties on the concrete worlds *)

(** X2 on a first element without [OnDate] that sets [AfterDate],
    [ExcludedBeforeDate] and [ExcludedDate]. *)
Lemma date_clauses_without_OnDate_witness :
  OnDate Sim.laterB = ""
  ∧ ∃ must mustNot,
      postsQuery Sim.visible [Sim.laterB] = Some (BooleanQuery must [] mustNot)
      ∧ flat_map range_clauses must =
          [NumericRangeQuery (Some (Go.float64 1704499199999)) None "CreateAt"]
      ∧ flat_map range_clauses mustNot =
          [NumericRangeQuery None (Some (Go.float64 1704412800000)) "CreateAt";
           NumericRangeQuery (Some (Go.float64 1704412800000))
                             (Some (Go.float64 1704499199999)) "CreateAt"].
Proof.
  assert (Hon : OnDate Sim.laterB = "") by reflexivity.
  split; [exact Hon|].
  exact (date_clauses_without_OnDate Sim.visible Sim.laterB [] Hon).
Defined.

(** X13 on an engine that was never configured for indexing. *)
Lemma Start_inactive_noop_witness :
  isActive (engine Sim.fresh) = false ∧ Start Sim.fresh = (Ok None, Sim.fresh).
Proof.
  assert (Hinactive : isActive (engine Sim.fresh) = false) by reflexivity.
  split; [exact Hinactive|]. exact (Start_inactive_noop Sim.fresh Hinactive).
Defined.

(** X20 on the first and the last millisecond of the fifth of January
    2024. *)
Lemma float64_exact_below_2_53_witness :
  (Z.abs 1704412800000 < 2 ^ 53)%Z
  ∧ (Z.abs 1704499199999 < 2 ^ 53)%Z
  ∧ Go.float64 1704412800000 = S754_finite false 6981274828800000 (-12)
  ∧ Go.float64 1704499199999 = S754_finite false 6981628723195904 (-12)
  ∧ (Go.float64 1704412800000 = Go.float64 1704499199999 →
     1704412800000 = 1704499199999)%Z.
Proof.
  assert (Hlo : (Z.abs 1704412800000 < 2 ^ 53)%Z) by reflexivity.
  assert (Hhi : (Z.abs 1704499199999 < 2 ^ 53)%Z) by reflexivity.
  split; [exact Hlo|]. split; [exact Hhi|].
  split; [reflexivity|]. split; [reflexivity|].
  exact (proj2 (float64_exact_below_2_53 1704412800000 1704499199999 Hlo Hhi)).
Defined.

(** From here on the world is the one with failures. *)
#[local] Remove Hints Sim.env : typeclass_instances.
#[local] Existing Instance Lab.env.

(** X6 on an engine whose post index does not answer. *)
Lemma SearchPosts_with_open_index_witness :
  postIndex (engine (Lab.runningOn "bad")) = Some "bad/posts.bleve"
  ∧ ∃ query postIds matches err st',
      postsQuery Sim.visible [Sim.params "deploy"] = Some query
      ∧ SearchPosts Sim.visible [Sim.params "deploy"] 0 60 (Lab.runningOn "bad")
          = (Ok (postIds, matches, err), st')
      ∧ engine st' = engine (Lab.runningOn "bad")
      ∧ trace st' = [EvSearch "bad/posts.bleve" (NewSearchRequest query)]
      ∧ world st' = world (Lab.runningOn "bad")
      ∧ (postIds = None ∧ matches = None
         ∧ err = Some {| Where := "Bleveengine.SearchPosts";
                         ErrId := "bleveengine.search_posts.error";
                         DetailedError := "index is closed";
                         StatusCode := 500 |}).
Proof.
  assert (Hidx : postIndex (engine (Lab.runningOn "bad")) = Some "bad/posts.bleve")
    by reflexivity.
  split; [exact Hidx|].
  exact (SearchPosts_with_open_index Sim.visible (Sim.params "deploy") [] 0 60
           (Lab.runningOn "bad") "bad/posts.bleve" Hidx).
Defined.

(** X8 on a started engine, with a term in capitals. *)
Lemma SearchChannels_with_open_index_witness :
  channelIndex (engine (Lab.runningOn "data")) = Some "data/channels.bleve"
  ∧ ∃ channelIds err st',
      SearchChannels "team1" "Eng" (Lab.runningOn "data") = (Ok (channelIds, err), st')
      ∧ engine st' = engine (Lab.runningOn "data")
      ∧ trace st' =
          [EvSearch "data/channels.bleve"
             (NewSearchRequest
                (ConjunctionQuery [TermQuery "team1" "TeamId";
                                   PrefixQuery "eng" "NameSuggest"]))]
      ∧ (channelIds = Some ["ch1"; "ch2"] ∧ err = None).
Proof.
  assert (Hidx : channelIndex (engine (Lab.runningOn "data"))
                 = Some "data/channels.bleve") by reflexivity.
  split; [exact Hidx|].
  exact (SearchChannels_with_open_index "team1" "Eng" (Lab.runningOn "data")
           "data/channels.bleve" Hidx).
Defined.

(** X10 on an engine whose user index does not answer: one search, no
    second one. *)
Lemma SearchUsersInChannel_with_open_index_witness :
  userIndex (engine (Lab.runningOn "bad")) = Some "bad/users.bleve"
  ∧ (None : Go.slice string) ≠ Some []
  ∧ ∃ r st',
      SearchUsersInChannel "team1" "chan1" None "" Sim.options (Lab.runningOn "bad")
        = (Ok r, st')
      ∧ engine st' = engine (Lab.runningOn "bad")
      ∧ (r = (None, None,
              Some {| Where := "Bleveengine.SearchUsersInChannel";
                      ErrId := "bleveengine.search_users_in_channel.uchan.error";
                      DetailedError := "index is closed"; StatusCode := 500 |})
         ∧ trace st' =
             [EvSearch "bad/users.bleve"
                (NewSearchRequest
                   (ConjunctionQuery [TermQuery "chan1" "ChannelsIds"]))]
         ∧ world st' = world (Lab.runningOn "bad")).
Proof.
  assert (Hidx : userIndex (engine (Lab.runningOn "bad")) = Some "bad/users.bleve")
    by reflexivity.
  assert (Hguard : (None : Go.slice string) ≠ Some []) by discriminate.
  split; [exact Hidx|]. split; [exact Hguard|].
  exact (SearchUsersInChannel_with_open_index "team1" "chan1" "" None Sim.options
           (Lab.runningOn "bad") "bad/users.bleve" Hidx Hguard).
Defined.

(** X14 where the user index can be neither opened nor created: the post
    index has been created, the user handle is nil, the channel index was
    never tried. *)
Lemma Start_opens_all_or_reports_witness :
  isActive (engine (Lab.unstarted "ro")) = true
  ∧ Start (Lab.unstarted "ro") =
      (Ok (Some {| Where := "Bleveengine.Start";
                   ErrId := "bleveengine.create_user_index.error";
                   DetailedError := "permission denied"; StatusCode := 500 |}),
       {| engine := {| postIndex := Some "ro/posts.bleve"; userIndex := None;
                       channelIndex := None; cfg := Sim.settings true "ro";
                       jobServer := None; indexSync := false |};
          world := ["ro/posts.bleve"];
          trace := [EvWarn "Starting Bleve";
                    EvOpen "ro/posts.bleve";
                    EvNew "ro/posts.bleve" getPostIndexMapping;
                    EvOpen "ro/users.bleve";
                    EvNew "ro/users.bleve" getUserIndexMapping] |})
  ∧ ∃ r st' evs,
      Start (Lab.unstarted "ro") = (Ok r, st')
      ∧ cfg (engine st') = Sim.settings true "ro"
      ∧ trace st' = EvWarn "Starting Bleve" :: evs
      ∧ Forall (λ path, path ∈ ["ro/posts.bleve"; "ro/users.bleve";
                                 "ro/channels.bleve"]) (touched evs)
      ∧ (r = None ↔
         is_Some (postIndex (engine st')) ∧ is_Some (userIndex (engine st'))
         ∧ is_Some (channelIndex (engine st'))).
Proof.
  assert (Hactive : isActive (engine (Lab.unstarted "ro")) = true) by reflexivity.
  split; [exact Hactive|]. split; [reflexivity|].
  destruct (Start_opens_all_or_reports (Lab.unstarted "ro") Hactive)
    as (r & st' & evs & Hrun & Hcfg & Htrace & Htouched & Hnil & _).
  exists r, st', evs. exact (conj Hrun (conj Hcfg (conj Htrace (conj Htouched Hnil)))).
Defined.

(** X16 where the user index fails to close: the channel index is left
    open. *)
Lemma Stop_closes_in_order_witness :
  isActive (engine (Lab.runningOn "bad")) = true
  ∧ Stop (Lab.runningOn "bad") =
      (Ok (Some {| Where := "Bleveengine.Stop";
                   ErrId := "bleveengine.stop_user_index.error";
                   DetailedError := "close failed"; StatusCode := 500 |}),
       {| engine := Lab.engineOn "bad"; world := world (Lab.runningOn "bad");
          trace := [EvWarn "Stopping Bleve"; EvClose "bad/posts.bleve";
                    EvClose "bad/users.bleve"] |})
  ∧ ∃ r st',
      Stop (Lab.runningOn "bad") = (Ok r, st')
      ∧ closed (trace st') = ["bad/posts.bleve"; "bad/users.bleve"].
Proof.
  assert (Hactive : isActive (engine (Lab.runningOn "bad")) = true) by reflexivity.
  split; [exact Hactive|]. split; [reflexivity|].
  destruct (Stop_closes_in_order (Lab.runningOn "bad")
              "bad/posts.bleve" "bad/users.bleve" "bad/channels.bleve"
              Hactive eq_refl eq_refl eq_refl)
    as (r & st' & Hrun & Hclosed & _).
  exists r, st'. exact (conj Hrun Hclosed).
Defined.

(** X17 on an engine made by [NewBleveEngine] with an active configuration
    and never started. *)
Lemma Stop_panics_on_nil_handle_witness :
  isActive (engine (Lab.unstarted "data")) = true
  ∧ postIndex (engine (Lab.unstarted "data")) = None
  ∧ Stop (Lab.unstarted "data") =
      (Panic "nil pointer dereference",
       {| engine := NewBleveEngine (Sim.settings true "data") None;
          world := []; trace := [EvWarn "Stopping Bleve"] |}).
Proof.
  assert (Hactive : isActive (engine (Lab.unstarted "data")) = true) by reflexivity.
  assert (Hnil : postIndex (engine (Lab.unstarted "data")) = None) by reflexivity.
  split; [exact Hactive|]. split; [exact Hnil|].
  exact (Stop_panics_on_nil_handle (Lab.unstarted "data") Hactive Hnil).
Defined.

(** X18 on the same engine, started first: the three indexes are created
    and then closed. *)
Lemma Stop_after_Start_witness :
  isActive (engine (Lab.unstarted "data")) = true
  ∧ Start (Lab.unstarted "data") = (Ok None, Lab.justStarted "data")
  ∧ ∃ posts users channels r stopped evs,
      postIndex (engine (Lab.justStarted "data")) = Some posts
      ∧ userIndex (engine (Lab.justStarted "data")) = Some users
      ∧ channelIndex (engine (Lab.justStarted "data")) = Some channels
      ∧ Stop (Lab.justStarted "data") = (Ok r, stopped)
      ∧ engine stopped = engine (Lab.justStarted "data")
      ∧ trace stopped =
          trace (Lab.justStarted "data")
          ++ EvWarn "Stopping Bleve" :: EvClose posts :: evs.
Proof.
  assert (Hactive : isActive (engine (Lab.unstarted "data")) = true) by reflexivity.
  assert (Hstart : Start (Lab.unstarted "data") = (Ok None, Lab.justStarted "data"))
    by reflexivity.
  split; [exact Hactive|]. split; [exact Hstart|].
  exact (Stop_after_Start (Lab.unstarted "data") (Lab.justStarted "data")
           Hactive Hstart).
Defined.

(** X22 on a started engine and on one whose user index does not answer. *)
Lemma SearchUsersInTeam_with_open_index_witness :
  userIndex (engine (Lab.runningOn "data")) = Some "data/users.bleve"
  ∧ (None : Go.slice string) ≠ Some []
  ∧ SearchUsersInTeam "team1" None "" Sim.options (Lab.runningOn "bad")
    = (Ok (None,
           Some {| Where := "Bleveengine.SearchUsersInTeam";
                   ErrId := "bleveengine.search_users_in_team.error";
                   DetailedError := "index is closed"; StatusCode := 500 |}),
       {| engine := Lab.engineOn "bad"; world := world (Lab.runningOn "bad");
          trace := [EvSearch "bad/users.bleve"
                      (NewSearchRequest
                         (BooleanQuery [TermQuery "team1" "TeamsIds"] [] []))] |})
  ∧ ∃ usersIds err st',
      SearchUsersInTeam "team1" None "" Sim.options (Lab.runningOn "data")
        = (Ok (usersIds, err), st')
      ∧ engine st' = engine (Lab.runningOn "data")
      ∧ (usersIds = Some ["u1"] ∧ err = None).
Proof.
  assert (Hidx : userIndex (engine (Lab.runningOn "data")) = Some "data/users.bleve")
    by reflexivity.
  assert (Hguard : (None : Go.slice string) ≠ Some []) by discriminate.
  split; [exact Hidx|]. split; [exact Hguard|]. split; [reflexivity|].
  exact (SearchUsersInTeam_with_open_index "team1" "" None Sim.options
           (Lab.runningOn "data") "data/users.bleve" Hidx Hguard).
Defined.
